(** * Project handler of the Linear MCP server

    A shallow embedding of [ProjectHandler] (the second part of
    [src/core/types/tool.types.ts]): [handleCreateProjectWithIssues],
    [handleGetProject] and [handleSearchProjects], together with the
    fragment of JavaScript they run on.

    The handlers take [args : any]; arguments are therefore modelled as
    untyped JSON values ([JsValue]) and every read of a property, every
    truthiness test and every [Array.isArray] of the source is kept.  The
    results of the GraphQL client are typed in the source and are records
    here.  Each handler is written in a small monad that threads the list of
    gateway calls made so far and the JavaScript exception, if any. *)

From Stdlib Require Import String Ascii List ZArith Bool Lia.
From Stdlib Require Import Decimal DecimalString.
Import ListNotations.
Local Open Scope string_scope.
Set Warnings "-register-all".

(** ** Characters the source writes with escapes *)

Definition nl : string := String "010"%char EmptyString.
Definition dq : string := String "034"%char EmptyString.

Definition natToString (n : nat) : string :=
  NilZero.string_of_uint (Nat.to_uint n).

(** ** JavaScript values and exceptions *)

Module Js.

(** The value of an [any]-typed argument: what [JSON.parse] can produce, and
    [undefined] for an absent property.  A number is integer valued (a
    JavaScript number is a double: it holds every integer below 2^53 in
    absolute value exactly); a string is the sequence of its characters.
    The properties of an object are its own properties, each key once; the
    first binding of a key is the property. *)
Inductive JsValue : Type :=
| JsUndefined
| JsNull
| JsBool (b : bool)
| JsNumber (n : Z)
| JsString (s : string)
| JsArray (items : list JsValue)
| JsObject (props : list (string * JsValue)).

(** The class of a thrown error.  [Error] is [new Error(...)] and whatever
    the gateway raises; [TypeError] is raised by the runtime;
    [ValidationError] and [AuthError] are raised by the base handler. *)
Inductive ErrorName : Type :=
| Error
| TypeError
| ValidationError
| AuthError.

Record JsError : Type := mkError { errName : ErrorName; message : string }.

(** Result of evaluating an expression: a value, a thrown error, or
    [Unmodelled] where JavaScript needs a conversion that this development
    does not describe (string to number, and to string the numbers outside
    the safe integers, which are printed with the shortest digits that read
    back as the same double). *)
Inductive Res (A : Type) : Type :=
| Ok (a : A)
| Throw (e : JsError)
| Unmodelled.

Arguments Ok {A} a.
Arguments Throw {A} e.
Arguments Unmodelled {A}.

Definition rbind {A B} (r : Res A) (k : A -> Res B) : Res B :=
  match r with
  | Ok a => k a
  | Throw e => Throw e
  | Unmodelled => Unmodelled
  end.

(** [!!v] *)
Definition truthy (v : JsValue) : bool :=
  match v with
  | JsUndefined | JsNull => false
  | JsBool b => b
  | JsNumber n => negb (n =? 0)%Z
  | JsString s => negb (s =? "")
  | JsArray _ | JsObject _ => true
  end.

(** [a || b] *)
Definition jsOr (a b : JsValue) : JsValue := if truthy a then a else b.

Definition isArray (v : JsValue) : bool :=
  match v with
  | JsArray _ => true
  | _ => false
  end.

Fixpoint lookupProp (k : string) (props : list (string * JsValue)) : JsValue :=
  match props with
  | [] => JsUndefined
  | (k', v) :: rest => if k =? k' then v else lookupProp k rest
  end.

Fixpoint hasOwn (k : string) (props : list (string * JsValue)) : bool :=
  match props with
  | [] => false
  | (k', _) :: rest => (k =? k') || hasOwn k rest
  end.

(** The message V8 gives to a read of a property of [null] or [undefined]. *)
Definition cannotRead (base k : string) : JsError :=
  mkError TypeError ("Cannot read properties of " ++ base ++ " (reading '" ++ k ++ "')").

(** [v.k] for the property names the handlers read: identifiers that are
    neither array indices nor names of inherited members. *)
Definition getProp (v : JsValue) (k : string) : Res JsValue :=
  match v with
  | JsUndefined => Throw (cannotRead "undefined" k)
  | JsNull => Throw (cannotRead "null" k)
  | JsBool _ | JsNumber _ => Ok JsUndefined
  | JsString s =>
      Ok (if k =? "length" then JsNumber (Z.of_nat (String.length s)) else JsUndefined)
  | JsArray items =>
      Ok (if k =? "length" then JsNumber (Z.of_nat (List.length items)) else JsUndefined)
  | JsObject props => Ok (lookupProp k props)
  end.

(** [v === 0] *)
Definition strictEqZero (v : JsValue) : bool :=
  match v with
  | JsNumber n => (n =? 0)%Z
  | _ => false
  end.

Definition cannotConvert : JsError :=
  mkError TypeError "Cannot convert object to primitive value".

(** [v > 0].  The operand is converted to a number; for an object that goes
    through [toString], which a JSON object inherits unless it has an own
    property of that name (then nothing callable is found). *)
Definition greaterThanZero (v : JsValue) : Res bool :=
  match v with
  | JsUndefined | JsNull => Ok false
  | JsBool b => Ok b
  | JsNumber n => Ok (0 <? n)%Z
  | JsString s => if s =? "" then Ok false else Unmodelled
  | JsArray [] => Ok false
  | JsArray (_ :: _) => Unmodelled
  | JsObject props => if hasOwn "toString" props then Throw cannotConvert else Ok false
  end.

(** A safe integer, [|n| < 2^53], prints as its decimal digits. *)
Definition numberToString (n : Z) : Res string :=
  if (Z.abs n <? 2 ^ 53)%Z then Ok (NilZero.string_of_int (Z.to_int n)) else Unmodelled.

(** [`${v}`]: the string a template literal substitutes for [v]. *)
Fixpoint toStringJs (v : JsValue) : Res string :=
  match v with
  | JsUndefined => Ok "undefined"
  | JsNull => Ok "null"
  | JsBool b => Ok (if b then "true" else "false")
  | JsNumber n => numberToString n
  | JsString s => Ok s
  | JsArray items =>
      (fix join (l : list JsValue) (first : bool) : Res string :=
         match l with
         | [] => Ok ""
         | x :: rest =>
             rbind (match x with
                    | JsUndefined | JsNull => Ok ""
                    | _ => toStringJs x
                    end)
                   (fun s =>
                      rbind (join rest false)
                            (fun t => Ok ((if first then "" else ",") ++ s ++ t)))
         end) items true
  | JsObject props =>
      if hasOwn "toString" props then Throw cannotConvert else Ok "[object Object]"
  end.

(** [s.includes(search)] *)
Fixpoint includes (s search : string) : bool :=
  if String.prefix search s then true
  else match s with
       | EmptyString => false
       | String _ s' => includes s' search
       end.

(** [labels.includes(x)] on an array of strings *)
Definition arrayIncludes (labels : list string) (x : string) : bool :=
  existsb (String.eqb x) labels.

End Js.
Export Js.

(** ** The GraphQL client

    The payloads are typed in the source ([LinearGraphQLClient], whose
    declarations the handler imports); only the fields the handlers read are
    kept.  An optional field is an [option], as the source reads it with
    [?.] or tests it before use. *)

Module Gateway.

Record Project : Type := mkProject {
  project_id : string;
  project_name : string;
  project_url : string }.

Record ProjectCreate : Type := mkProjectCreate {
  pc_success : bool;
  pc_project : Project }.

Record CreatedIssue : Type := mkCreatedIssue {
  identifier : string;
  title : string;
  url : string }.

Record IssueBatchCreate : Type := mkIssueBatchCreate {
  ibc_success : bool;
  ibc_issues : list CreatedIssue }.

Record CreateProjectWithIssuesResult : Type := mkCreateResult {
  projectCreate : ProjectCreate;
  issueBatchCreate : option IssueBatchCreate }.

Record IssueNode : Type := mkIssueNode {
  issue_id : string;
  issue_title : string }.

Record IssueConnection : Type := mkIssueConnection {
  issue_nodes : option (list IssueNode) }.

Record SearchIssuesResult : Type := mkSearchIssuesResult {
  si_issues : option IssueConnection }.

Record ProjectDetail : Type := mkProjectDetail {
  detail_id : string;
  detail_name : string;
  detail_issues : option (list IssueNode) }.

(** [getProject] may resolve to a nullish value (the handler tests
    [result &&]); that is [None] below. *)
Record GetProjectResult : Type := mkGetProjectResult {
  gp_project : option ProjectDetail }.

Record ProjectNode : Type := mkProjectNode {
  node_id : string;
  node_name : string;
  node_state : option string }.

Record ProjectConnection : Type := mkProjectConnection {
  nodes : option (list ProjectNode) }.

Record SearchProjectsResult : Type := mkSearchProjectsResult {
  projects : option ProjectConnection }.

(** One entry per request sent upstream, with its arguments. *)
Inductive GatewayCall : Type :=
| CallCreateProjectWithIssues (project issues : JsValue)
| CallGetProject (id : JsValue)
| CallSearchIssues (filter : JsValue)
| CallSearchProjects (filter first : JsValue).

(** The client: for each operation, what the upstream answers or raises. *)
Record LinearGraphQLClient : Type := mkClient {
  createProjectWithIssues : JsValue -> JsValue -> Res CreateProjectWithIssuesResult;
  getProject : JsValue -> Res (option GetProjectResult);
  searchIssues : JsValue -> Res SearchIssuesResult;
  searchProjects : JsValue -> JsValue -> Res SearchProjectsResult }.

End Gateway.
Export Gateway.

(** ** Handler computations: gateway calls made, then a result *)

Module Handler.

Definition M (A : Type) : Type := (list GatewayCall * Res A)%type.

Definition ret {A} (a : A) : M A := ([], Ok a).

Definition bind {A B} (m : M A) (k : A -> M B) : M B :=
  match m with
  | (calls, Ok a) => let (calls', r) := k a in ((calls ++ calls')%list, r)
  | (calls, Throw e) => (calls, Throw e)
  | (calls, Unmodelled) => (calls, Unmodelled)
  end.

(** An expression that makes no call. *)
Definition lift {A} (r : Res A) : M A := ([], r).

Definition throw {A} (e : JsError) : M A := ([], Throw e).

(** [await client.op(...)]: the call is recorded, then its outcome. *)
Definition call {A} (c : GatewayCall) (r : Res A) : M A := ([c], r).

(** [try { m } catch (error) { h error }] *)
Definition tryCatch {A} (m : M A) (h : JsError -> M A) : M A :=
  match m with
  | (calls, Throw e) => let (calls', r) := h e in ((calls ++ calls')%list, r)
  | other => other
  end.

End Handler.
Export Handler.

Declare Scope handler_scope.
Delimit Scope handler_scope with handler.
Notation "x <- m ;; k" := (bind m (fun x => k))
  (at level 61, m at next level, right associativity) : handler_scope.
Notation "m ;;; k" := (bind m (fun _ => k))
  (at level 61, right associativity) : handler_scope.
Local Open Scope handler_scope.

(** ** The base handler *)

Module BaseHandler.

Inductive Payload : Type :=
| ProjectPayload (result : option GetProjectResult)
| SearchPayload (result : SearchProjectsResult).

(** Modelled from the spec: the response envelope built by [createResponse]
    and [createJsonResponse] of [BaseHandler] (core/handlers/base.handler,
    missing from the sources).  The spec has
    [{ kind: "text" | "json", payload }]: a text block, or a structured
    payload passed through. *)
Inductive BaseToolResponse : Type :=
| TextResponse (text : string)
| JsonResponse (payload : Payload).

(** Modelled from the spec: [createResponse] of [BaseHandler], missing from
    the sources; it wraps a text in the envelope. *)
Definition createResponse (text : string) : BaseToolResponse := TextResponse text.

(** Modelled from the spec: [createJsonResponse] of [BaseHandler], missing
    from the sources; the payload is passed through. *)
Definition createJsonResponse (payload : Payload) : BaseToolResponse :=
  JsonResponse payload.

(** Modelled from the spec: [verifyAuth] of [BaseHandler], missing from the
    sources.  The session provider hands out a ready client or raises
    [AuthError] when there is no valid session. *)
Definition verifyAuth (session : option LinearGraphQLClient) : Res LinearGraphQLClient :=
  match session with
  | Some client => Ok client
  | None => Throw (mkError AuthError "no valid session")
  end.

Definition ownProp (args : JsValue) (k : string) : JsValue :=
  match args with
  | JsObject props => lookupProp k props
  | _ => JsUndefined
  end.

Definition isUndefined (v : JsValue) : bool :=
  match v with
  | JsUndefined => true
  | _ => false
  end.

(** Modelled from the spec: [validateRequiredParams] of [BaseHandler],
    missing from the sources.  For each declared required key, in order,
    fail with [ValidationError("missing field <name>")] if it is absent or
    undefined. *)
Fixpoint validateRequiredParams (args : JsValue) (required : list string) : Res unit :=
  match required with
  | [] => Ok tt
  | k :: rest =>
      if isUndefined (ownProp args k)
      then Throw (mkError ValidationError ("missing field " ++ k))
      else validateRequiredParams args rest
  end.

(** Modelled from the spec: [handleError] of [BaseHandler], missing from
    the sources.  [ValidationError] and [AuthError] surface as they are;
    any other failure is raised again with its message preserved inside a
    wrapper that indicates the operation attempted.  The spec fixes no
    wording for the wrapper. *)
Definition handleError (error : JsError) (operation : string) : JsError :=
  match errName error with
  | ValidationError | AuthError => error
  | Error | TypeError =>
      mkError (errName error) ("Failed to " ++ operation ++ ": " ++ message error)
  end.

(** What the caller of a handler observes. *)
Inductive Outcome : Type :=
| Returned (response : BaseToolResponse)
| Raised (error : JsError)
| OutsideModel.

(** The end of a handler: the response of the [try] block, or the error it
    raised, passed through [handleError]. *)
Definition settle (r : Res BaseToolResponse) (operation : string) : Outcome :=
  match r with
  | Ok response => Returned response
  | Throw error => Raised (handleError error operation)
  | Unmodelled => OutsideModel
  end.

(** [try { body } catch (error) { this.handleError(error, operation) }] *)
Definition guarded (body : M BaseToolResponse) (operation : string)
  : list GatewayCall * Outcome :=
  let (calls, r) := body in (calls, settle r operation).

End BaseHandler.
Export BaseHandler.

Notation "'let?' x ':=' r 'in' k" := (rbind r (fun x => k))
  (at level 10, x name, r at level 100, k at level 200).

(** ** The project handler *)

Module ProjectHandler.

(** [!v || !Array.isArray(v) || v.length === 0], evaluated left to right. *)
Definition notNonEmptyArray (v : JsValue) : Res bool :=
  if negb (truthy v) then Ok true
  else if negb (isArray v) then Ok true
  else let? len := getProp v "length" in Ok (strictEqZero len).

Definition teamIdsMessage : string :=
  "Project requires teamIds as an array with at least one team ID." ++ nl ++
  "Example:" ++ nl ++
  "{" ++ nl ++
  "  project: {" ++ nl ++
  "    name: " ++ dq ++ "Project Name" ++ dq ++ "," ++ nl ++
  "    teamIds: [" ++ dq ++ "team-id-1" ++ dq ++ "]" ++ nl ++
  "  }," ++ nl ++
  "  issues: [{ title: " ++ dq ++ "Issue Title" ++ dq ++ ", teamId: " ++ dq ++ "team-id-1" ++ dq ++ " }]" ++ nl ++
  "}".

Definition issuesMessage : string :=
  "Issues parameter must be an array of issue objects." ++ nl ++
  "Example: issues: [{ title: " ++ dq ++ "Issue Title" ++ dq ++ ", teamId: " ++ dq ++ "team-id-1" ++ dq ++ " }]".

Definition issueTeamIdMessage (index : nat) : string :=
  "Issue at index " ++ natToString index ++ " is missing required teamId." ++ nl ++
  "Each issue must have a teamId that matches one of the project teamIds.".

(** [args.issues.forEach((issue, index) => { if (!issue.teamId) throw ... })],
    from [index] on. *)
Fixpoint forEachIssue (issues : list JsValue) (index : nat) : Res unit :=
  match issues with
  | [] => Ok tt
  | issue :: rest =>
      let? teamId := getProp issue "teamId" in
      if negb (truthy teamId)
      then Throw (mkError Error (issueTeamIdMessage index))
      else forEachIssue rest (S index)
  end.

Definition itemsOf (v : JsValue) : list JsValue :=
  match v with
  | JsArray items => items
  | _ => []
  end.

(** The argument checks of [handleCreateProjectWithIssues], from
    [validateRequiredParams] to the end of the [forEach]. *)
Definition validateProjectWithIssues (args : JsValue) : Res unit :=
  let? _ := validateRequiredParams args ["project"; "issues"] in
  let? project := getProp args "project" in
  let? teamIds := getProp project "teamIds" in
  let? bad := notNonEmptyArray teamIds in
  if bad then Throw (mkError Error teamIdsMessage)
  else
    let? issues := getProp args "issues" in
    if negb (isArray issues) then Throw (mkError Error issuesMessage)
    else forEachIssue (itemsOf issues) 0.

Definition issueLine (issue : CreatedIssue) : string :=
  "- " ++ identifier issue ++ ": " ++ title issue ++ " (" ++ url issue ++ ")".

(** [result.issueBatchCreate?.issues.length ?? 0] *)
Definition issuesCreated (result : CreateProjectWithIssuesResult) : nat :=
  match issueBatchCreate result with
  | Some batch => List.length (ibc_issues batch)
  | None => 0
  end.

(** The lines of the success text, before [join]. *)
Definition successLines (result : CreateProjectWithIssuesResult) : list string :=
  let project := pc_project (projectCreate result) in
  let response :=
    [ "Successfully created project with issues";
      "Project: " ++ project_name project;
      "Project URL: " ++ project_url project ] in
  if (0 <? issuesCreated result)%nat
  then (response ++
        ("Issues created: " ++ natToString (issuesCreated result))%string
        :: match issueBatchCreate result with
           | Some batch => map issueLine (ibc_issues batch)
           | None => []
           end)%list
  else response.

(** [!result.projectCreate.success ||
     (result.issueBatchCreate && !result.issueBatchCreate.success)] *)
Definition creationFailed (result : CreateProjectWithIssuesResult) : bool :=
  negb (pc_success (projectCreate result))
  || match issueBatchCreate result with
     | Some batch => negb (ibc_success batch)
     | None => false
     end.

Definition createProjectWithIssuesBody
  (session : option LinearGraphQLClient) (args : JsValue) : M BaseToolResponse :=
  client <- lift (verifyAuth session) ;;
  lift (validateProjectWithIssues args) ;;;
  project <- lift (getProp args "project") ;;
  issues <- lift (getProp args "issues") ;;
  result <- call (CallCreateProjectWithIssues project issues)
                 (createProjectWithIssues client project issues) ;;
  if creationFailed result
  then throw (mkError Error "Failed to create project or issues")
  else ret (createResponse (String.concat nl (successLines result))).

Definition handleCreateProjectWithIssues
  (session : option LinearGraphQLClient) (args : JsValue) : list GatewayCall * Outcome :=
  guarded (createProjectWithIssuesBody session args) "create project with issues".

(** [{ project: { id: { eq: id } } }] *)
Definition issuesOfProjectFilter (id : JsValue) : JsValue :=
  JsObject [("project", JsObject [("id", JsObject [("eq", id)])])].

(** [(result as any).project.issues = nodes] *)
Definition attachIssues (result : GetProjectResult) (issues : list IssueNode)
  : GetProjectResult :=
  match gp_project result with
  | Some p =>
      mkGetProjectResult
        (Some (mkProjectDetail (detail_id p) (detail_name p) (Some issues)))
  | None => result
  end.

(** [includeIssues && result && (result as any).project] *)
Definition wantsIssues (includeIssues : JsValue) (result : option GetProjectResult) : bool :=
  truthy includeIssues
  && match result with
     | Some r => match gp_project r with Some _ => true | None => false end
     | None => false
     end.

Definition notFoundText (id : string) : string :=
  "Project with ID " ++ dq ++ id ++ dq ++ " does not exist".

Definition isEntityNotFound (error : JsError) : bool :=
  includes (message error) "Entity not found"
  || includes (message error) "Could not find referenced Project".

(** The inner [try] of [handleGetProject]. *)
Definition fetchProject (client : LinearGraphQLClient) (args includeIssues : JsValue)
  : M BaseToolResponse :=
  id <- lift (getProp args "id") ;;
  result <- call (CallGetProject id) (getProject client id) ;;
  if wantsIssues includeIssues result
  then
    id' <- lift (getProp args "id") ;;
    issuesResult <- call (CallSearchIssues (issuesOfProjectFilter id'))
                         (searchIssues client (issuesOfProjectFilter id')) ;;
    match si_issues issuesResult with
    | Some connection =>
        match issue_nodes connection with
        | Some found =>
            ret (createJsonResponse
                   (ProjectPayload (option_map (fun r => attachIssues r found) result)))
        | None => ret (createJsonResponse (ProjectPayload result))
        end
    | None => ret (createJsonResponse (ProjectPayload result))
    end
  else ret (createJsonResponse (ProjectPayload result)).

(** The inner [catch] of [handleGetProject].  Every thrown value of this
    development is an instance of [Error]. *)
Definition recoverNotFound (args : JsValue) (error : JsError) : M BaseToolResponse :=
  if isEntityNotFound error
  then
    id <- lift (getProp args "id") ;;
    text <- lift (toStringJs id) ;;
    ret (createResponse (notFoundText text))
  else throw error.

Definition getProjectBody
  (session : option LinearGraphQLClient) (args : JsValue) : M BaseToolResponse :=
  client <- lift (verifyAuth session) ;;
  lift (validateRequiredParams args ["id"]) ;;;
  flag <- lift (getProp args "includeIssues") ;;
  let includeIssues := jsOr flag (JsBool false) in
  tryCatch (fetchProject client args includeIssues) (recoverNotFound args).

Definition handleGetProject
  (session : option LinearGraphQLClient) (args : JsValue) : list GatewayCall * Outcome :=
  guarded (getProjectBody session args) "get project info".

Definition nameOrTeamIdsMessage : string :=
  "At least a project name or teamIds must be provided for search".

(** [!args.name && (!args.teamIds || !Array.isArray(args.teamIds) ||
     args.teamIds.length === 0)] raises. *)
Definition requireNameOrTeamIds (args : JsValue) : Res unit :=
  let? name := getProp args "name" in
  if negb (truthy name)
  then
    let? teamIds := getProp args "teamIds" in
    let? bad := notNonEmptyArray teamIds in
    if bad then Throw (mkError Error nameOrTeamIdsMessage) else Ok tt
  else Ok tt.

(** [args.teamIds && args.teamIds.length > 0] *)
Definition hasTeamIds (teamIds : JsValue) : Res bool :=
  if truthy teamIds
  then let? len := getProp teamIds "length" in greaterThanZero len
  else Ok false.

(** The filter sent upstream: [{}], then [filter.name], then [filter.team]. *)
Definition buildFilter (args : JsValue) : Res JsValue :=
  let? name := getProp args "name" in
  let named :=
    if truthy name then [("name", JsObject [("contains", name)])] else [] in
  let? teamIds := getProp args "teamIds" in
  let? teams := hasTeamIds teamIds in
  Ok (JsObject
        (if teams
         then (named ++ [("team", JsObject [("id", JsObject [("in", teamIds)])])])%list
         else named)).

Definition archivedStates : list string := ["Archived"; "Canceled"; "Completed"].

(** The predicate given to [filter]:
    [!archivedStates.includes(project.state || "")]. *)
Definition keepProject (project : ProjectNode) : bool :=
  negb (arrayIncludes archivedStates
          (match node_state project with
           | Some state => state
           | None => ""
           end)).

(** [if (!includeArchived && result.projects?.nodes)
       result.projects.nodes = result.projects.nodes.filter(...)] *)
Definition dropArchived (includeArchived : JsValue) (result : SearchProjectsResult)
  : SearchProjectsResult :=
  if negb (truthy includeArchived)
  then match projects result with
       | Some connection =>
           match nodes connection with
           | Some found =>
               mkSearchProjectsResult
                 (Some (mkProjectConnection (Some (filter keepProject found))))
           | None => result
           end
       | None => result
       end
  else result.

(** [`No projects found matching the search criteria ${args.name ? `'${args.name}'` : ""}`] *)
Definition noMatchText (name : JsValue) : Res string :=
  if truthy name
  then let? shown := toStringJs name in
       Ok ("No projects found matching the search criteria " ++ "'" ++ shown ++ "'")
  else Ok ("No projects found matching the search criteria " ++ "").

(** From [result.projects?.nodes.length === 0] to the end of the [try]. *)
Definition searchResponse (args : JsValue) (result : SearchProjectsResult)
  : Res BaseToolResponse :=
  match projects result with
  | None => Ok (createJsonResponse (SearchPayload result))
  | Some connection =>
      match nodes connection with
      | None => Throw (cannotRead "undefined" "length")
      | Some found =>
          if (List.length found =? 0)%nat
          then let? name := getProp args "name" in
               let? text := noMatchText name in
               Ok (createResponse text)
          else Ok (createJsonResponse (SearchPayload result))
      end
  end.

Definition searchProjectsBody
  (session : option LinearGraphQLClient) (args : JsValue) : M BaseToolResponse :=
  client <- lift (verifyAuth session) ;;
  lift (requireNameOrTeamIds args) ;;;
  filter <- lift (buildFilter args) ;;
  limit <- lift (getProp args "first") ;;
  let first := jsOr limit (JsNumber 50) in
  flag <- lift (getProp args "includeArchived") ;;
  let includeArchived := jsOr flag (JsBool false) in
  result <- call (CallSearchProjects filter first) (searchProjects client filter first) ;;
  lift (searchResponse args (dropArchived includeArchived result)).

Definition handleSearchProjects
  (session : option LinearGraphQLClient) (args : JsValue) : list GatewayCall * Outcome :=
  guarded (searchProjectsBody session args) "search projects".

End ProjectHandler.
Export ProjectHandler.

(** ** The validation rules, as the specification words them *)

Module Rules.

Inductive Tool : Type :=
| CreateProjectWithIssues
| GetProject
| SearchProjects.

Definition handle (tool : Tool)
  : option LinearGraphQLClient -> JsValue -> list GatewayCall * Outcome :=
  match tool with
  | CreateProjectWithIssues => handleCreateProjectWithIssues
  | GetProject => handleGetProject
  | SearchProjects => handleSearchProjects
  end.

(** The required keys each handler declares. *)
Definition requiredFields (tool : Tool) : list string :=
  match tool with
  | CreateProjectWithIssues => ["project"; "issues"]
  | GetProject => ["id"]
  | SearchProjects => []
  end.

Definition missingRequired (tool : Tool) (args : JsValue) : bool :=
  existsb (fun k => isUndefined (ownProp args k)) (requiredFields tool).

(** A list with at least one element. *)
Definition nonEmptyArray (v : JsValue) : bool :=
  match v with
  | JsArray (_ :: _) => true
  | _ => false
  end.

(** [Violates tool args field]: the arguments break a rule of the tool, and
    [field] is the field at fault. *)
Inductive Violates : Tool -> JsValue -> string -> Prop :=
| required_missing tool args k :
    In k (requiredFields tool) ->
    ownProp args k = JsUndefined ->
    Violates tool args k
| teamIds_not_a_list args :
    nonEmptyArray (ownProp (ownProp args "project") "teamIds") = false ->
    Violates CreateProjectWithIssues args "teamIds"
| issues_not_a_list args :
    isArray (ownProp args "issues") = false ->
    Violates CreateProjectWithIssues args "issues"
| issue_without_teamId args items i issue :
    ownProp args "issues" = JsArray items ->
    nth_error items i = Some issue ->
    truthy (ownProp issue "teamId") = false ->
    Violates CreateProjectWithIssues args "teamId"
| neither_name_nor_teamIds args :
    truthy (ownProp args "name") = false ->
    nonEmptyArray (ownProp args "teamIds") = false ->
    Violates SearchProjects args "teamIds".

Definition nullish (v : JsValue) : bool :=
  match v with
  | JsUndefined | JsNull => true
  | _ => false
  end.

(** No [null] stands where the handler reads a property: the argument object
    of a search, the project, and each element of the issue list. *)
Definition WellShaped (tool : Tool) (args : JsValue) : Prop :=
  match tool with
  | CreateProjectWithIssues =>
      ownProp args "project" <> JsNull
      /\ forall items, ownProp args "issues" = JsArray items ->
                       Forall (fun issue => nullish issue = false) items
  | GetProject => True
  | SearchProjects => nullish args = false
  end.

(** The projects a search hands back: those of the JSON payload. *)
Definition returnedProjects (outcome : Outcome) : list ProjectNode :=
  match outcome with
  | Returned (JsonResponse (SearchPayload result)) =>
      match projects result with
      | Some connection =>
          match nodes connection with
          | Some found => found
          | None => []
          end
      | None => []
      end
  | _ => []
  end.

Definition hasArchivedState (project : ProjectNode) : bool :=
  match node_state project with
  | Some state => arrayIncludes ["Archived"; "Canceled"; "Completed"] state
  | None => false
  end.

End Rules.
Export Rules.

(** ** Sample sessions and invocations *)

Module Samples.

Definition q1Project : Project :=
  mkProject "proj-7f3a" "Q1 Planning" "https://linear.app/acme/project/q1-planning".

Definition setupIssue : CreatedIssue :=
  mkCreatedIssue "ENG-1" "Setup" "https://linear.app/acme/issue/ENG-1".

Definition startedNode : ProjectNode := mkProjectNode "p-1" "Alpha" (Some "Started").
Definition archivedNode : ProjectNode := mkProjectNode "p-2" "Alpha old" (Some "Archived").
Definition canceledNode : ProjectNode := mkProjectNode "p-3" "Alpha dropped" (Some "Canceled").
Definition statelessNode : ProjectNode := mkProjectNode "p-4" "Alpha next" None.

Definition upstreamNodes : list ProjectNode :=
  [startedNode; archivedNode; statelessNode; canceledNode].

Definition foundProjects (found : list ProjectNode) : SearchProjectsResult :=
  mkSearchProjectsResult (Some (mkProjectConnection (Some found))).

(** A client whose project creation answers [created] and whose lookups
    raise [lookupError]; searches answer [found]. *)
Definition clientWith
  (created : CreateProjectWithIssuesResult) (lookupError : string)
  (found : list ProjectNode) : LinearGraphQLClient :=
  mkClient
    (fun _ _ => Ok created)
    (fun _ => Throw (mkError Error lookupError))
    (fun _ => Ok (mkSearchIssuesResult None))
    (fun _ _ => Ok (foundProjects found)).

(** Project created, batch answered with [success: false]. *)
Definition batchFailed : CreateProjectWithIssuesResult :=
  mkCreateResult (mkProjectCreate true q1Project)
                 (Some (mkIssueBatchCreate false [])).

(** Project created, no [issueBatchCreate] in the answer. *)
Definition projectOnly : CreateProjectWithIssuesResult :=
  mkCreateResult (mkProjectCreate true q1Project) None.

Definition bothCreated : CreateProjectWithIssuesResult :=
  mkCreateResult (mkProjectCreate true q1Project)
                 (Some (mkIssueBatchCreate true [setupIssue])).

Definition projectArg : JsValue :=
  JsObject [("name", JsString "Q1 Planning"); ("teamIds", JsArray [JsString "team-1"])].

Definition issueArg (titleText : string) : JsValue :=
  JsObject [("title", JsString titleText); ("description", JsString "init");
            ("teamId", JsString "team-1")].

Definition issuesArg : JsValue := JsArray [issueArg "Setup"].

Definition createArgs : JsValue :=
  JsObject [("project", projectArg); ("issues", issuesArg)].

(** The third issue has no [teamId]. *)
Definition thirdIssueBare : list JsValue :=
  [issueArg "Setup"; issueArg "Plan"; JsObject [("title", JsString "Review")];
   JsObject [("title", JsString "Ship")]].

Definition createArgsThirdBare : JsValue :=
  JsObject [("project", projectArg); ("issues", JsArray thirdIssueBare)].

(** [teamIds] is missing from the project. *)
Definition createArgsNoTeams : JsValue :=
  JsObject [("project", JsObject [("name", JsString "Q1 Planning")]);
            ("issues", issuesArg)].

Definition getArgs : JsValue := JsObject [("id", JsString "proj-404")].

Definition searchByName : JsValue := JsObject [("name", JsString "Alpha")].

Definition searchByNameAll : JsValue :=
  JsObject [("name", JsString "Alpha"); ("includeArchived", JsBool true)].

Definition searchEmpty : JsValue := JsObject [("teamIds", JsArray [])].

(** [teamIds] given as a string next to a name. *)
Definition searchTeamAsString : JsValue :=
  JsObject [("name", JsString "Alpha"); ("teamIds", JsString "team-1")].

End Samples.

(** ** The catalog of tool schemas

    [toolSchemas], the first part of the source file: an object literal,
    kept as the JavaScript value it denotes, keys in the order written. *)

Module Catalog.

Definition linear_auth : JsValue :=
  JsObject
    [ ("name", JsString "linear_auth");
      ("description", JsString "Initialize OAuth authentication flow with Linear. This is the first step in connecting to a Linear workspace.");
      ("inputSchema", JsObject
          [ ("type", JsString "object");
            ("properties", JsObject
                [ ("clientId", JsObject
                      [ ("type", JsString "string");
                        ("description", JsString "Your Linear OAuth client ID from the Linear developer settings") ]);
                  ("clientSecret", JsObject
                      [ ("type", JsString "string");
                        ("description", JsString "Your Linear OAuth client secret from the Linear developer settings") ]);
                  ("redirectUri", JsObject
                      [ ("type", JsString "string");
                        ("description", JsString "The URI where Linear should redirect after authentication") ]) ]);
            ("required", JsArray
                [ JsString "clientId";
                  JsString "clientSecret";
                  JsString "redirectUri" ]) ]) ].

Definition linear_auth_callback : JsValue :=
  JsObject
    [ ("name", JsString "linear_auth_callback");
      ("description", JsString "Complete the OAuth flow by handling the callback from Linear with the authorization code.");
      ("inputSchema", JsObject
          [ ("type", JsString "object");
            ("properties", JsObject
                [ ("code", JsObject
                      [ ("type", JsString "string");
                        ("description", JsString "The authorization code received from Linear after user authorization") ]) ]);
            ("required", JsArray [JsString "code"]) ]) ].

Definition linear_create_issue : JsValue :=
  JsObject
    [ ("name", JsString "linear_create_issue");
      ("description", JsString "Create a new issue in a specified team with title, description, and optional parameters.");
      ("inputSchema", JsObject
          [ ("type", JsString "object");
            ("properties", JsObject
                [ ("teamId", JsObject
                      [ ("type", JsString "string");
                        ("description", JsString "ID of the team where the issue will be created") ]);
                  ("title", JsObject
                      [ ("type", JsString "string");
                        ("description", JsString "Title of the issue") ]);
                  ("description", JsObject
                      [ ("type", JsString "string");
                        ("description", JsString "Description of the issue in markdown format") ]);
                  ("assigneeId", JsObject
                      [ ("type", JsString "string");
                        ("description", JsString "ID of the user to assign the issue to (optional)") ]);
                  ("stateId", JsObject
                      [ ("type", JsString "string");
                        ("description", JsString "ID of the issue state (optional)") ]);
                  ("priority", JsObject
                      [ ("type", JsString "number");
                        ("description", JsString "Priority of the issue (0-4, where 0 is no priority, 1 is urgent, 2 is high, 3 is medium, 4 is low) (optional)") ]) ]);
            ("required", JsArray [JsString "teamId"; JsString "title"; JsString "description"]) ]) ].

Definition linear_create_project_with_issues : JsValue :=
  JsObject
    [ ("name", JsString "linear_create_project_with_issues");
      ("description", JsString "Create a new project and associated issues in one operation. Projects can span multiple teams.");
      ("inputSchema", JsObject
          [ ("type", JsString "object");
            ("properties", JsObject
                [ ("project", JsObject
                      [ ("type", JsString "object");
                        ("properties", JsObject
                            [ ("name", JsObject
                                  [ ("type", JsString "string");
                                    ("description", JsString "Name of the project") ]);
                              ("description", JsObject
                                  [ ("type", JsString "string");
                                    ("description", JsString "Description of the project in markdown format (optional)") ]);
                              ("teamIds", JsObject
                                  [ ("type", JsString "array");
                                    ("items", JsObject [("type", JsString "string")]);
                                    ("description", JsString "List of team IDs this project belongs to (required)");
                                    ("minItems", JsNumber 1) ]) ]);
                        ("required", JsArray [JsString "name"; JsString "teamIds"]) ]);
                  ("issues", JsObject
                      [ ("type", JsString "array");
                        ("items", JsObject
                            [ ("type", JsString "object");
                              ("properties", JsObject
                                  [ ("title", JsObject
                                        [ ("type", JsString "string");
                                          ("description", JsString "Title of the issue") ]);
                                    ("description", JsObject
                                        [ ("type", JsString "string");
                                          ("description", JsString "Description of the issue in markdown format") ]);
                                    ("teamId", JsObject
                                        [ ("type", JsString "string");
                                          ("description", JsString "ID of the team where the issue will be created (must match one of the project teamIds)") ]) ]);
                              ("required", JsArray
                                  [ JsString "title";
                                    JsString "description";
                                    JsString "teamId" ]) ]);
                        ("description", JsString "List of issues to create with this project") ]) ]);
            ("required", JsArray [JsString "project"; JsString "issues"]) ]);
      ("examples", JsArray
          [ JsObject
              [ ("description", JsString "Create a project with a single team and issue");
                ("value", JsObject
                    [ ("project", JsObject
                          [ ("name", JsString "Q1 Planning");
                            ("description", JsString "Q1 2025 Planning Project");
                            ("teamIds", JsArray [JsString "team-id-1"]) ]);
                      ("issues", JsArray
                          [ JsObject
                              [ ("title", JsString "Project Setup");
                                ("description", JsString "Initial project setup tasks");
                                ("teamId", JsString "team-id-1") ] ]) ]) ];
            JsObject
              [ ("description", JsString "Create a project with multiple teams");
                ("value", JsObject
                    [ ("project", JsObject
                          [ ("name", JsString "Cross-team Initiative");
                            ("description", JsString "Project spanning multiple teams");
                            ("teamIds", JsArray [JsString "team-id-1"; JsString "team-id-2"]) ]);
                      ("issues", JsArray
                          [ JsObject
                              [ ("title", JsString "Team 1 Tasks");
                                ("description", JsString "Tasks for team 1");
                                ("teamId", JsString "team-id-1") ];
                            JsObject
                              [ ("title", JsString "Team 2 Tasks");
                                ("description", JsString "Tasks for team 2");
                                ("teamId", JsString "team-id-2") ] ]) ]) ] ]) ].

Definition linear_bulk_update_issues : JsValue :=
  JsObject
    [ ("name", JsString "linear_bulk_update_issues");
      ("description", JsString "Update multiple issues at once with the same field changes. More efficient than making separate calls for each issue.");
      ("inputSchema", JsObject
          [ ("type", JsString "object");
            ("properties", JsObject
                [ ("issueIds", JsObject
                      [ ("type", JsString "array");
                        ("items", JsObject [("type", JsString "string")]);
                        ("description", JsString "List of issue IDs to update") ]);
                  ("update", JsObject
                      [ ("type", JsString "object");
                        ("properties", JsObject
                            [ ("stateId", JsObject
                                  [ ("type", JsString "string");
                                    ("description", JsString "ID of the workflow state to set for all issues (optional)") ]);
                              ("assigneeId", JsObject
                                  [ ("type", JsString "string");
                                    ("description", JsString "ID of the user to assign all issues to (optional)") ]);
                              ("priority", JsObject
                                  [ ("type", JsString "number");
                                    ("description", JsString "Priority level to set for all issues (0-4, where 0 is no priority, 1 is urgent) (optional)") ]);
                              ("labelIds", JsObject
                                  [ ("type", JsString "array");
                                    ("items", JsObject [("type", JsString "string")]);
                                    ("description", JsString "List of label IDs to apply to all issues (optional)") ]);
                              ("title", JsObject
                                  [ ("type", JsString "string");
                                    ("description", JsString "New title to set for all issues (optional)") ]);
                              ("description", JsObject
                                  [ ("type", JsString "string");
                                    ("description", JsString "New description in markdown format to set for all issues (optional)") ]);
                              ("projectId", JsObject
                                  [ ("type", JsString "string");
                                    ("description", JsString "ID of the project to move all issues to (optional)") ]) ]) ]) ]);
            ("required", JsArray [JsString "issueIds"; JsString "update"]) ]) ].

Definition linear_search_issues : JsValue :=
  JsObject
    [ ("name", JsString "linear_search_issues");
      ("description", JsString "Search for issues using a query string. Returns matching issues that the authenticated user has access to.");
      ("inputSchema", JsObject
          [ ("type", JsString "object");
            ("properties", JsObject
                [ ("query", JsObject
                      [ ("type", JsString "string");
                        ("description", JsString "Search query to find issues (searches across title, description, ID, etc.)") ]);
                  ("limit", JsObject
                      [ ("type", JsString "number");
                        ("description", JsString "Maximum number of issues to return");
                        ("optional", JsBool true) ]);
                  ("teamId", JsObject
                      [ ("type", JsString "string");
                        ("description", JsString "Filter issues to a specific team");
                        ("optional", JsBool true) ]);
                  ("includeArchived", JsObject
                      [ ("type", JsString "boolean");
                        ("description", JsString "Whether to include archived issues in the results");
                        ("optional", JsBool true) ]) ]);
            ("required", JsArray [JsString "query"]) ]) ].

Definition linear_get_teams : JsValue :=
  JsObject
    [ ("name", JsString "linear_get_teams");
      ("description", JsString "Get a list of all teams in the Linear workspace accessible to the authenticated user.");
      ("inputSchema", JsObject
          [ ("type", JsString "object");
            ("properties", JsObject []);
            ("required", JsArray []) ]) ].

Definition linear_get_user : JsValue :=
  JsObject
    [ ("name", JsString "linear_get_user");
      ("description", JsString "Get information about the currently authenticated user, including their name, email, and role.");
      ("inputSchema", JsObject
          [ ("type", JsString "object");
            ("properties", JsObject []);
            ("required", JsArray []) ]) ].

Definition linear_delete_issue : JsValue :=
  JsObject
    [ ("name", JsString "linear_delete_issue");
      ("description", JsString "Delete a specific issue from Linear. This action is permanent and cannot be undone.");
      ("inputSchema", JsObject
          [ ("type", JsString "object");
            ("properties", JsObject
                [ ("id", JsObject
                      [ ("type", JsString "string");
                        ("description", JsString ("Issue identifier (e.g., " ++ dq ++ "ABC-123" ++ dq ++ ") to delete")) ]) ]);
            ("required", JsArray [JsString "id"]) ]) ].

Definition linear_delete_issues : JsValue :=
  JsObject
    [ ("name", JsString "linear_delete_issues");
      ("description", JsString "Delete multiple issues at once. More efficient than making separate calls for each issue. This action is permanent.");
      ("inputSchema", JsObject
          [ ("type", JsString "object");
            ("properties", JsObject
                [ ("ids", JsObject
                      [ ("type", JsString "array");
                        ("items", JsObject [("type", JsString "string")]);
                        ("description", JsString ("List of issue identifiers (e.g., [" ++ dq ++ "ABC-123" ++ dq ++ ", " ++ dq ++ "ABC-124" ++ dq ++ "]) to delete")) ]) ]);
            ("required", JsArray [JsString "ids"]) ]) ].

Definition linear_get_project : JsValue :=
  JsObject
    [ ("name", JsString "linear_get_project");
      ("description", JsString "Get detailed information about a specific project, including its members, status, and related issues.");
      ("inputSchema", JsObject
          [ ("type", JsString "object");
            ("properties", JsObject
                [ ("id", JsObject
                      [ ("type", JsString "string");
                        ("description", JsString "ID of the project to retrieve") ]) ]);
            ("required", JsArray [JsString "id"]) ]) ].

Definition linear_search_projects : JsValue :=
  JsObject
    [ ("name", JsString "linear_search_projects");
      ("description", JsString "Search for projects by name or description. Returns matching projects accessible to the authenticated user.");
      ("inputSchema", JsObject
          [ ("type", JsString "object");
            ("properties", JsObject
                [ ("query", JsObject
                      [ ("type", JsString "string");
                        ("description", JsString "Search query to find projects by name or description") ]);
                  ("limit", JsObject
                      [ ("type", JsString "number");
                        ("description", JsString "Maximum number of projects to return (default: 10)") ]);
                  ("includeArchived", JsObject
                      [ ("type", JsString "boolean");
                        ("description", JsString "Whether to include archived projects in the results (default: false)") ]) ]);
            ("required", JsArray [JsString "query"]) ]) ].

Definition linear_create_issues : JsValue :=
  JsObject
    [ ("name", JsString "linear_create_issues");
      ("description", JsString "Create multiple issues at once in a single team. More efficient than making separate calls for each issue.");
      ("inputSchema", JsObject
          [ ("type", JsString "object");
            ("properties", JsObject
                [ ("teamId", JsObject
                      [ ("type", JsString "string");
                        ("description", JsString "ID of the team where all issues will be created") ]);
                  ("issues", JsObject
                      [ ("type", JsString "array");
                        ("items", JsObject
                            [ ("type", JsString "object");
                              ("properties", JsObject
                                  [ ("title", JsObject
                                        [ ("type", JsString "string");
                                          ("description", JsString "Title of the issue") ]);
                                    ("description", JsObject
                                        [ ("type", JsString "string");
                                          ("description", JsString "Description of the issue in markdown format (optional)") ]);
                                    ("assigneeId", JsObject
                                        [ ("type", JsString "string");
                                          ("description", JsString "ID of the user to assign the issue to (optional)") ]);
                                    ("stateId", JsObject
                                        [ ("type", JsString "string");
                                          ("description", JsString "ID of the issue state (optional)") ]);
                                    ("priority", JsObject
                                        [ ("type", JsString "number");
                                          ("description", JsString "Priority of the issue (0-4, where 0 is no priority, 1 is urgent, 2 is high, 3 is medium, 4 is low) (optional)") ]);
                                    ("labelIds", JsObject
                                        [ ("type", JsString "array");
                                          ("items", JsObject [("type", JsString "string")]);
                                          ("description", JsString "List of label IDs to apply to the issue (optional)") ]) ]);
                              ("required", JsArray [JsString "title"]) ]);
                        ("description", JsString "List of issues to create, each with its own properties") ]) ]);
            ("required", JsArray [JsString "teamId"; JsString "issues"]) ]) ].

Definition linear_get_issue : JsValue :=
  JsObject
    [ ("name", JsString "linear_get_issue");
      ("description", JsString "Get detailed information about a specific issue including its description, assignees, status, and more.");
      ("inputSchema", JsObject
          [ ("type", JsString "object");
            ("properties", JsObject
                [ ("issueId", JsObject
                      [ ("type", JsString "string");
                        ("description", JsString ("ID of the issue to retrieve (either the numeric ID or the full identifier like " ++ dq ++ "ABC-123" ++ dq ++ ")")) ]) ]);
            ("required", JsArray [JsString "issueId"]) ]) ].

Definition linear_get_projects : JsValue :=
  JsObject
    [ ("name", JsString "linear_get_projects");
      ("description", JsString "Get a list of projects with optional filtering by state or team.");
      ("inputSchema", JsObject
          [ ("type", JsString "object");
            ("properties", JsObject
                [ ("teamId", JsObject
                      [ ("type", JsString "string");
                        ("description", JsString "ID of the team to filter projects by (optional)") ]);
                  ("filter", JsObject
                      [ ("type", JsString "string");
                        ("description", JsString "Filter string for searching projects (optional)") ]);
                  ("includeArchived", JsObject
                      [ ("type", JsString "boolean");
                        ("description", JsString "Whether to include archived projects in the results (default: false)") ]) ]);
            ("required", JsArray []) ]) ].

Definition linear_get_team_states : JsValue :=
  JsObject
    [ ("name", JsString "linear_get_team_states");
      ("description", JsString ("Get all workflow states for a specific team (e.g., " ++ dq ++ "Todo" ++ dq ++ ", " ++ dq ++ "In Progress" ++ dq ++ ", " ++ dq ++ "Done" ++ dq ++ ")."));
      ("inputSchema", JsObject
          [ ("type", JsString "object");
            ("properties", JsObject
                [ ("teamId", JsObject
                      [ ("type", JsString "string");
                        ("description", JsString "ID of the team to get workflow states for") ]) ]);
            ("required", JsArray [JsString "teamId"]) ]) ].

Definition linear_get_team_labels : JsValue :=
  JsObject
    [ ("name", JsString "linear_get_team_labels");
      ("description", JsString "Get all labels for a specific team that can be applied to issues.");
      ("inputSchema", JsObject
          [ ("type", JsString "object");
            ("properties", JsObject
                [ ("teamId", JsObject
                      [ ("type", JsString "string");
                        ("description", JsString "ID of the team to get labels for") ]) ]);
            ("required", JsArray [JsString "teamId"]) ]) ].

(** [toolSchemas]: the catalog, one entry per tool, in the order of the source. *)
Definition toolSchemas : JsValue :=
  JsObject
    [ ("linear_auth", linear_auth);
      ("linear_auth_callback", linear_auth_callback);
      ("linear_create_issue", linear_create_issue);
      ("linear_create_project_with_issues", linear_create_project_with_issues);
      ("linear_bulk_update_issues", linear_bulk_update_issues);
      ("linear_search_issues", linear_search_issues);
      ("linear_get_teams", linear_get_teams);
      ("linear_get_user", linear_get_user);
      ("linear_delete_issue", linear_delete_issue);
      ("linear_delete_issues", linear_delete_issues);
      ("linear_get_project", linear_get_project);
      ("linear_search_projects", linear_search_projects);
      ("linear_create_issues", linear_create_issues);
      ("linear_get_issue", linear_get_issue);
      ("linear_get_projects", linear_get_projects);
      ("linear_get_team_states", linear_get_team_states);
      ("linear_get_team_labels", linear_get_team_labels) ].

(** The own properties of an object, in order. *)
Definition entries (v : JsValue) : list (string * JsValue) :=
  match v with
  | JsObject props => props
  | _ => []
  end.

(** The strings of an array of strings. *)
Definition stringsOf (v : JsValue) : list string :=
  flat_map (fun x => match x with JsString s => [s] | _ => [] end) (itemsOf v).

(** Every object that occurs in a value, the value itself included. *)
Fixpoint subObjects (v : JsValue) : list (list (string * JsValue)) :=
  match v with
  | JsArray items =>
      (fix inItems (l : list JsValue) : list (list (string * JsValue)) :=
         match l with
         | [] => []
         | x :: rest => (subObjects x ++ inItems rest)%list
         end) items
  | JsObject props =>
      props
      :: (fix inProps (l : list (string * JsValue)) : list (list (string * JsValue)) :=
            match l with
            | [] => []
            | (_, x) :: rest => (subObjects x ++ inProps rest)%list
            end) props
  | _ => []
  end.

(** The names a schema lists under [required] are keys of its
    [properties]. *)
Definition requiredDeclared (schema : list (string * JsValue)) : bool :=
  forallb (fun k => hasOwn k (entries (lookupProp "properties" schema)))
          (stringsOf (lookupProp "required" schema)).

(** The property names the input schema of a tool declares. *)
Definition declaredProperties (tool : JsValue) : list string :=
  map fst (entries (ownProp (ownProp tool "inputSchema") "properties")).

(** The names the input schema of a tool requires. *)
Definition requiredProperties (tool : JsValue) : list string :=
  stringsOf (ownProp (ownProp tool "inputSchema") "required").

(** The argument objects a tool gives as [examples]. *)
Definition exampleValues (tool : JsValue) : list JsValue :=
  map (fun example => ownProp example "value") (itemsOf (ownProp tool "examples")).

(** The tool found under a key of the catalog. *)
Definition toolNamed (key : string) : JsValue := ownProp toolSchemas key.

End Catalog.

(** ** More sample sessions *)

Module MoreSamples.

Definition q1Detail : ProjectDetail := mkProjectDetail "proj-7f3a" "Q1 Planning" None.

Definition q1Found : GetProjectResult := mkGetProjectResult (Some q1Detail).

Definition setupNode : IssueNode := mkIssueNode "issue-1" "Setup".

(** A client whose lookup answers [found] and whose issue search gives
    [issuesAnswer]. *)
Definition lookupClient
  (found : option GetProjectResult) (issuesAnswer : Res SearchIssuesResult)
  : LinearGraphQLClient :=
  mkClient
    (fun _ _ => Ok Samples.projectOnly)
    (fun _ => Ok found)
    (fun _ => issuesAnswer)
    (fun _ _ => Ok (Samples.foundProjects [])).

(** A client whose project search gives [answer]. *)
Definition searchClient (answer : Res SearchProjectsResult) : LinearGraphQLClient :=
  mkClient
    (fun _ _ => Ok Samples.projectOnly)
    (fun _ => Ok None)
    (fun _ => Ok (mkSearchIssuesResult None))
    (fun _ _ => answer).

Definition getProps : list (string * JsValue) := [("id", JsString "proj-7f3a")].

Definition getPropsWithIssues : list (string * JsValue) :=
  [("id", JsString "proj-7f3a"); ("includeIssues", JsBool true)].

(** An invocation that uses the fields its schema declares, and no other. *)
Definition searchAsDeclared : list (string * JsValue) :=
  [("query", JsString "roadmap"); ("limit", JsNumber 5); ("includeArchived", JsBool true)].

Definition searchByTeams : JsValue :=
  JsObject [("teamIds", JsArray [JsString "team-1"; JsString "team-2"]);
            ("first", JsNumber 0)].

End MoreSamples.

(** * Properties *)

(** ** Strings *)

Lemma prefix_app (s t : string) : String.prefix s (s ++ t) = true.
Proof.
  induction s as [|c s IH]; simpl.
  - now destruct t.
  - destruct (ascii_dec c c) as [_|ne]; [exact IH | now elim ne].
Qed.

Lemma includes_here (s t : string) : includes (s ++ t) s = true.
Proof.
  destruct s as [|c s]; simpl.
  - now destruct t.
  - destruct (ascii_dec c c) as [_|ne]; [| now elim ne].
    now rewrite prefix_app.
Qed.

Lemma includes_after (a t s : string) :
  includes t s = true -> includes (a ++ t) s = true.
Proof.
  intros H. induction a as [|c a IH]; [exact H|].
  change (includes (String c a ++ t) s)
    with (if String.prefix s (String c (a ++ t)) then true else includes (a ++ t) s).
  rewrite IH. now destruct (String.prefix s (String c (a ++ t))).
Qed.

(** A text contains whatever stands between a prefix and a suffix of it. *)
Lemma includes_middle (a s b : string) : includes (a ++ s ++ b) s = true.
Proof. apply includes_after, includes_here. Qed.

(** ** Creating a project with issues: the shape of a run *)

Lemma create_unauthenticated (args : JsValue) :
  handleCreateProjectWithIssues None args
  = ([], Raised (mkError AuthError "no valid session")).
Proof. reflexivity. Qed.

Lemma create_rejected (client : LinearGraphQLClient) (args : JsValue) (e : JsError) :
  validateProjectWithIssues args = Throw e ->
  handleCreateProjectWithIssues (Some client) args
  = ([], Raised (handleError e "create project with issues")).
Proof.
  intros H. unfold handleCreateProjectWithIssues, createProjectWithIssuesBody.
  simpl. rewrite H. reflexivity.
Qed.

(** Once the checks pass there is exactly one gateway call, and the answer
    decides between the generic failure and the success text. *)
Lemma create_accepted (client : LinearGraphQLClient) (args project issues : JsValue)
  (result : CreateProjectWithIssuesResult) :
  validateProjectWithIssues args = Ok tt ->
  getProp args "project" = Ok project ->
  getProp args "issues" = Ok issues ->
  createProjectWithIssues client project issues = Ok result ->
  handleCreateProjectWithIssues (Some client) args
  = ([CallCreateProjectWithIssues project issues],
     if creationFailed result
     then Raised (handleError (mkError Error "Failed to create project or issues")
                              "create project with issues")
     else Returned (TextResponse (String.concat nl (successLines result)))).
Proof.
  intros Hv Hp Hi Hc.
  unfold handleCreateProjectWithIssues, createProjectWithIssuesBody.
  simpl. rewrite Hv. simpl. rewrite Hp. simpl. rewrite Hi. simpl. rewrite Hc.
  destruct (creationFailed result); reflexivity.
Qed.

(** C1 (as amended).  When the project is created and the batch answers
    [success: false], the handler has made its one gateway call and fails
    with the fixed error "Failed to create project or issues", handed to
    [handleError] with the operation "create project with issues".  The
    error is the same whatever project was created: it carries neither the
    identifier nor the URL of the project. *)
Theorem batch_failure_raises_generic_error
  (client : LinearGraphQLClient) (args project issues : JsValue)
  (result : CreateProjectWithIssuesResult) (batch : IssueBatchCreate) :
  validateProjectWithIssues args = Ok tt ->
  getProp args "project" = Ok project ->
  getProp args "issues" = Ok issues ->
  createProjectWithIssues client project issues = Ok result ->
  pc_success (projectCreate result) = true ->
  issueBatchCreate result = Some batch ->
  ibc_success batch = false ->
  handleCreateProjectWithIssues (Some client) args
  = ([CallCreateProjectWithIssues project issues],
     Raised (handleError (mkError Error "Failed to create project or issues")
                         "create project with issues")).
Proof.
  intros Hv Hp Hi Hc Hs Hb Hf.
  rewrite (create_accepted client args project issues result Hv Hp Hi Hc).
  unfold creationFailed. rewrite Hs, Hb, Hf. reflexivity.
Qed.

Lemma batch_failure_raises_generic_error_witness :
  handleCreateProjectWithIssues
    (Some (Samples.clientWith Samples.batchFailed "" [])) Samples.createArgs
  = ([CallCreateProjectWithIssues Samples.projectArg Samples.issuesArg],
     Raised (handleError (mkError Error "Failed to create project or issues")
                         "create project with issues")).
Proof.
  apply (batch_failure_raises_generic_error
           (Samples.clientWith Samples.batchFailed "" []) Samples.createArgs
           Samples.projectArg Samples.issuesArg Samples.batchFailed
           (mkIssueBatchCreate false []));
    reflexivity.
Defined.

(** C1 (as stated) fails.  The project "proj-7f3a" is created, the batch
    answers [success: false]; the error raised mentions neither the
    identifier nor the URL of the project. *)
Lemma batch_failure_error_omits_project :
  pc_success (projectCreate Samples.batchFailed) = true
  /\ option_map ibc_success (issueBatchCreate Samples.batchFailed) = Some false
  /\ handleCreateProjectWithIssues
       (Some (Samples.clientWith Samples.batchFailed "" [])) Samples.createArgs
     = ([CallCreateProjectWithIssues Samples.projectArg Samples.issuesArg],
        Raised (mkError Error
                  "Failed to create project with issues: Failed to create project or issues"))
  /\ includes "Failed to create project with issues: Failed to create project or issues"
              (project_id (pc_project (projectCreate Samples.batchFailed))) = false
  /\ includes "Failed to create project with issues: Failed to create project or issues"
              (project_url (pc_project (projectCreate Samples.batchFailed))) = false.
Proof. repeat split; reflexivity. Qed.

(** C10.  When the answer reports [projectCreate.success] and has no
    [issueBatchCreate] at all, the handler returns the success text made of
    the heading, the project name line and the project URL line and nothing
    else, whatever the [issues] argument was; no error is raised. *)
Theorem project_only_answer_returns_three_lines
  (client : LinearGraphQLClient) (args project issues : JsValue)
  (result : CreateProjectWithIssuesResult) :
  validateProjectWithIssues args = Ok tt ->
  getProp args "project" = Ok project ->
  getProp args "issues" = Ok issues ->
  createProjectWithIssues client project issues = Ok result ->
  pc_success (projectCreate result) = true ->
  issueBatchCreate result = None ->
  handleCreateProjectWithIssues (Some client) args
  = ([CallCreateProjectWithIssues project issues],
     Returned (TextResponse
       (String.concat nl
          [ "Successfully created project with issues";
            "Project: " ++ project_name (pc_project (projectCreate result));
            "Project URL: " ++ project_url (pc_project (projectCreate result)) ]))).
Proof.
  intros Hv Hp Hi Hc Hs Hb.
  rewrite (create_accepted client args project issues result Hv Hp Hi Hc).
  unfold creationFailed, successLines, issuesCreated. rewrite Hs, Hb. reflexivity.
Qed.

Lemma project_only_answer_returns_three_lines_witness :
  handleCreateProjectWithIssues
    (Some (Samples.clientWith Samples.projectOnly "" [])) Samples.createArgs
  = ([CallCreateProjectWithIssues Samples.projectArg Samples.issuesArg],
     Returned (TextResponse
       (String.concat nl
          [ "Successfully created project with issues";
            "Project: Q1 Planning";
            "Project URL: https://linear.app/acme/project/q1-planning" ]))).
Proof.
  apply (project_only_answer_returns_three_lines
           (Samples.clientWith Samples.projectOnly "" []) Samples.createArgs
           Samples.projectArg Samples.issuesArg Samples.projectOnly);
    reflexivity.
Defined.

(** ** Property reads *)

Lemma append_assoc (a b c : string) : (a ++ b) ++ c = a ++ b ++ c.
Proof. induction a as [|x a IH]; simpl; [reflexivity | now rewrite IH]. Qed.

Lemma getProp_ownProp (v : JsValue) (k : string) :
  nullish v = false -> (k =? "length") = false -> getProp v k = Ok (ownProp v k).
Proof.
  intros Hn Hk. destruct v; try discriminate; simpl; try rewrite Hk; reflexivity.
Qed.

Lemma notNonEmptyArray_spec (v : JsValue) :
  notNonEmptyArray v = Ok (negb (nonEmptyArray v)).
Proof.
  destruct v as [| |b|n|s|items|props]; unfold notNonEmptyArray; simpl;
    try reflexivity.
  - now destruct b.
  - now destruct (n =? 0)%Z.
  - now destruct (s =? "").
  - now destruct items.
Qed.

(** ** The per-issue check *)

(** The [forEach] stops at the first issue whose [teamId] is falsy and
    reports its index. *)
Lemma forEachIssue_first (items : list JsValue) :
  forall (base i : nat) (issue teamId : JsValue),
    (forall j it, j < i -> nth_error items j = Some it ->
                  exists t, getProp it "teamId" = Ok t /\ truthy t = true) ->
    nth_error items i = Some issue ->
    getProp issue "teamId" = Ok teamId ->
    truthy teamId = false ->
    forEachIssue items base = Throw (mkError Error (issueTeamIdMessage (base + i))).
Proof.
  induction items as [|x rest IH]; intros base i issue teamId Hbefore Hi Hget Hfalsy.
  - destruct i; discriminate.
  - destruct i as [|i]; simpl in Hi.
    + injection Hi as ->. simpl. rewrite Hget. simpl. rewrite Hfalsy. simpl.
      now rewrite Nat.add_0_r.
    + destruct (Hbefore 0 x) as [t [Ht Htruthy]]; [lia | reflexivity |].
      simpl. rewrite Ht. simpl. rewrite Htruthy. simpl.
      rewrite (IH (S base) i issue teamId); auto.
      * now rewrite Nat.add_succ_r.
      * intros j it Hj Hnth. apply (Hbefore (S j) it); [lia | exact Hnth].
Qed.

Lemma issueTeamIdMessage_names_index (operationPrefix : string) (i : nat) :
  includes (operationPrefix ++ issueTeamIdMessage i)
           ("Issue at index " ++ natToString i ++ " is missing required teamId") = true.
Proof.
  unfold issueTeamIdMessage.
  change " is missing required teamId." with (" is missing required teamId" ++ ".").
  rewrite <- !append_assoc.
  rewrite !append_assoc.
  rewrite <- (append_assoc (natToString i)).
  rewrite <- (append_assoc "Issue at index ").
  apply includes_middle.
Qed.

Lemma validate_object (props : list (string * JsValue)) :
  isUndefined (lookupProp "project" props) = false ->
  isUndefined (lookupProp "issues" props) = false ->
  validateProjectWithIssues (JsObject props)
  = (let? teamIds := getProp (lookupProp "project" props) "teamIds" in
     let? bad := notNonEmptyArray teamIds in
     if bad then Throw (mkError Error teamIdsMessage)
     else if negb (isArray (lookupProp "issues" props))
          then Throw (mkError Error issuesMessage)
          else forEachIssue (itemsOf (lookupProp "issues" props)) 0).
Proof.
  intros Hp Hi. unfold validateProjectWithIssues, validateRequiredParams, ownProp.
  rewrite Hp, Hi. reflexivity.
Qed.

(** C7.  The session is valid, the project carries a non-empty [teamIds]
    list and [issues] is a list.  If the issue at index [i] has no (or a
    falsy) [teamId] and every issue before it has one, the handler fails
    before any gateway call, and the message of the error contains
    "Issue at index <i> is missing required teamId" with [i] counted from
    zero. *)
Theorem first_issue_without_teamId_is_reported
  (client : LinearGraphQLClient) (props : list (string * JsValue))
  (team : JsValue) (teams items : list JsValue) (i : nat) (issue teamId : JsValue) :
  getProp (lookupProp "project" props) "teamIds" = Ok (JsArray (team :: teams)) ->
  lookupProp "issues" props = JsArray items ->
  (forall j it, j < i -> nth_error items j = Some it ->
                exists t, getProp it "teamId" = Ok t /\ truthy t = true) ->
  nth_error items i = Some issue ->
  getProp issue "teamId" = Ok teamId ->
  truthy teamId = false ->
  handleCreateProjectWithIssues (Some client) (JsObject props)
  = ([], Raised (handleError (mkError Error (issueTeamIdMessage i))
                             "create project with issues"))
  /\ includes (message (handleError (mkError Error (issueTeamIdMessage i))
                                    "create project with issues"))
              ("Issue at index " ++ natToString i ++ " is missing required teamId")
     = true.
Proof.
  intros Hteams Hissues Hbefore Hi Hget Hfalsy. split.
  - apply create_rejected. rewrite validate_object.
    + rewrite Hteams, Hissues. simpl.
      apply (forEachIssue_first items 0 i issue teamId); assumption.
    + destruct (lookupProp "project" props); try reflexivity; discriminate Hteams.
    + now rewrite Hissues.
  - exact (issueTeamIdMessage_names_index "Failed to create project with issues: " i).
Qed.

Lemma first_issue_without_teamId_is_reported_witness :
  handleCreateProjectWithIssues
    (Some (Samples.clientWith Samples.bothCreated "" []))
    Samples.createArgsThirdBare
  = ([], Raised (handleError (mkError Error (issueTeamIdMessage 2))
                             "create project with issues"))
  /\ includes (message (handleError (mkError Error (issueTeamIdMessage 2))
                                    "create project with issues"))
              "Issue at index 2 is missing required teamId"
     = true.
Proof.
  apply (first_issue_without_teamId_is_reported
           (Samples.clientWith Samples.bothCreated "" [])
           [("project", Samples.projectArg); ("issues", JsArray Samples.thirdIssueBare)]
           (JsString "team-1") [] Samples.thirdIssueBare 2
           (JsObject [("title", JsString "Review")]) JsUndefined);
    try reflexivity.
  intros j it Hj Hnth.
  destruct j as [|[|j]]; [| | lia]; injection Hnth as <-;
    exists (JsString "team-1"); split; reflexivity.
Defined.

(** ** Looking a project up *)

(** C3.  The session is valid and [id] is given.  If the lookup raises an
    error whose message contains "Entity not found" or "Could not find
    referenced Project", the handler returns the text
    [Project with ID "<id>" does not exist], where [<id>] is the identifier
    as a template literal prints it; nothing is raised. *)
Theorem missing_project_is_reported_as_text
  (client : LinearGraphQLClient) (props : list (string * JsValue))
  (error : JsError) (shown : string) :
  isUndefined (lookupProp "id" props) = false ->
  toStringJs (lookupProp "id" props) = Ok shown ->
  getProject client (lookupProp "id" props) = Throw error ->
  includes (message error) "Entity not found" = true
  \/ includes (message error) "Could not find referenced Project" = true ->
  handleGetProject (Some client) (JsObject props)
  = ([CallGetProject (lookupProp "id" props)],
     Returned (TextResponse ("Project with ID " ++ dq ++ shown ++ dq ++ " does not exist"))).
Proof.
  intros Hid Hshown Hlookup Hfound.
  assert (Hrec : isEntityNotFound error = true).
  { unfold isEntityNotFound. destruct Hfound as [-> | ->]; [reflexivity|].
    apply orb_true_r. }
  unfold handleGetProject, getProjectBody, validateRequiredParams, ownProp.
  rewrite Hid. unfold fetchProject, recoverNotFound. simpl.
  rewrite Hlookup. simpl. rewrite Hrec. simpl. rewrite Hshown. reflexivity.
Qed.

Lemma missing_project_is_reported_as_text_witness :
  handleGetProject
    (Some (Samples.clientWith Samples.projectOnly "Entity not found: Project" []))
    Samples.getArgs
  = ([CallGetProject (JsString "proj-404")],
     Returned (TextResponse
                 ("Project with ID " ++ dq ++ "proj-404" ++ dq ++ " does not exist"))).
Proof.
  apply (missing_project_is_reported_as_text
           (Samples.clientWith Samples.projectOnly "Entity not found: Project" [])
           [("id", JsString "proj-404")]
           (mkError Error "Entity not found: Project") "proj-404");
    try reflexivity.
  left. reflexivity.
Defined.

(** ** Searching projects: the shape of a run *)

Lemma search_rejected (client : LinearGraphQLClient) (args : JsValue) (e : JsError) :
  requireNameOrTeamIds args = Throw e ->
  handleSearchProjects (Some client) args
  = ([], Raised (handleError e "search projects")).
Proof.
  intros H. unfold handleSearchProjects, searchProjectsBody. simpl.
  rewrite H. reflexivity.
Qed.

(** Once the check passes and the filter is built, the one gateway call
    carries the filter and the limit, [50] when [first] is not given. *)
Lemma search_accepted (client : LinearGraphQLClient) (args filter limit flag : JsValue)
  (answer : Res SearchProjectsResult) :
  requireNameOrTeamIds args = Ok tt ->
  buildFilter args = Ok filter ->
  getProp args "first" = Ok limit ->
  getProp args "includeArchived" = Ok flag ->
  searchProjects client filter (jsOr limit (JsNumber 50)) = answer ->
  handleSearchProjects (Some client) args
  = ([CallSearchProjects filter (jsOr limit (JsNumber 50))],
     match answer with
     | Ok result =>
         settle (searchResponse args (dropArchived (jsOr flag (JsBool false)) result))
                "search projects"
     | Throw e => Raised (handleError e "search projects")
     | Unmodelled => OutsideModel
     end).
Proof.
  intros Hcheck Hfilter Hlimit Hflag Hanswer.
  unfold handleSearchProjects, searchProjectsBody. simpl.
  rewrite Hcheck. simpl. rewrite Hfilter. simpl. rewrite Hlimit. simpl.
  rewrite Hflag. simpl. rewrite Hanswer.
  destruct answer as [result | e |]; reflexivity.
Qed.

Lemma keepProject_spec (project : ProjectNode) :
  keepProject project = negb (hasArchivedState project).
Proof.
  unfold keepProject, hasArchivedState, archivedStates.
  destruct (node_state project); reflexivity.
Qed.

Lemma filter_keepProject (found : list ProjectNode) :
  filter keepProject found = filter (fun project => negb (hasArchivedState project)) found.
Proof. apply filter_ext. intros project. apply keepProject_spec. Qed.

(** What comes back when the upstream answered a list of projects. *)
Lemma returned_after_filtering (args : JsValue) (kept : list ProjectNode) :
  returnedProjects
    (settle (searchResponse args
               (mkSearchProjectsResult (Some (mkProjectConnection (Some kept)))))
            "search projects")
  = kept.
Proof.
  unfold searchResponse. simpl. destruct kept as [|project rest]; [|reflexivity].
  simpl. destruct (getProp args "name") as [name | |]; simpl; try reflexivity.
  destruct (noMatchText name); reflexivity.
Qed.

Lemma truthy_jsOr_false (flag : JsValue) : truthy (jsOr flag (JsBool false)) = truthy flag.
Proof. unfold jsOr. destruct (truthy flag) eqn:H; [exact H | reflexivity]. Qed.

Lemma dropArchived_found (flag : JsValue) (result : SearchProjectsResult)
  (connection : ProjectConnection) (found : list ProjectNode) :
  projects result = Some connection ->
  nodes connection = Some found ->
  dropArchived (jsOr flag (JsBool false)) result
  = if truthy flag then result
    else mkSearchProjectsResult
           (Some (mkProjectConnection
                    (Some (filter (fun project => negb (hasArchivedState project)) found)))).
Proof.
  intros Hp Hn. unfold dropArchived. rewrite truthy_jsOr_false, Hp, Hn.
  rewrite filter_keepProject. now destruct (truthy flag).
Qed.

(** C2.  A search that reaches the gateway and is answered a list of
    projects.  With [includeArchived] unset or [false], the projects handed
    back are exactly those of the answer whose state is none of "Archived",
    "Canceled", "Completed"; with [includeArchived: true] they are all the
    projects of the answer. *)
Theorem archived_projects_are_dropped_unless_included
  (client : LinearGraphQLClient) (args query limit flag : JsValue)
  (result : SearchProjectsResult) (connection : ProjectConnection)
  (found : list ProjectNode) :
  requireNameOrTeamIds args = Ok tt ->
  buildFilter args = Ok query ->
  getProp args "first" = Ok limit ->
  getProp args "includeArchived" = Ok flag ->
  searchProjects client query (jsOr limit (JsNumber 50)) = Ok result ->
  projects result = Some connection ->
  nodes connection = Some found ->
  (flag = JsUndefined \/ flag = JsBool false ->
   returnedProjects (snd (handleSearchProjects (Some client) args))
   = filter (fun project => negb (hasArchivedState project)) found)
  /\ (flag = JsBool true ->
      returnedProjects (snd (handleSearchProjects (Some client) args)) = found).
Proof.
  intros Hcheck Hquery Hlimit Hflag Hanswer Hp Hn.
  rewrite (search_accepted client args query limit flag (Ok result)
             Hcheck Hquery Hlimit Hflag Hanswer).
  rewrite (dropArchived_found flag result connection found Hp Hn).
  cbn [snd]. split.
  - intros Hunset.
    assert (Hfalsy : truthy flag = false) by (destruct Hunset as [-> | ->]; reflexivity).
    rewrite Hfalsy. apply returned_after_filtering.
  - intros ->. cbn [truthy].
    destruct result as [maybe]. cbn [projects] in Hp. subst maybe.
    destruct connection as [maybe]. cbn [nodes] in Hn. subst maybe.
    apply returned_after_filtering.
Qed.

Lemma archived_projects_are_dropped_unless_included_witness :
  returnedProjects
    (snd (handleSearchProjects
            (Some (Samples.clientWith Samples.projectOnly "" Samples.upstreamNodes))
            Samples.searchByName))
  = [Samples.startedNode; Samples.statelessNode]
  /\ returnedProjects
       (snd (handleSearchProjects
               (Some (Samples.clientWith Samples.projectOnly "" Samples.upstreamNodes))
               Samples.searchByNameAll))
     = Samples.upstreamNodes.
Proof.
  split.
  - exact (proj1 (archived_projects_are_dropped_unless_included
                    (Samples.clientWith Samples.projectOnly "" Samples.upstreamNodes)
                    Samples.searchByName
                    (JsObject [("name", JsObject [("contains", JsString "Alpha")])])
                    JsUndefined JsUndefined
                    (Samples.foundProjects Samples.upstreamNodes)
                    (mkProjectConnection (Some Samples.upstreamNodes))
                    Samples.upstreamNodes
                    eq_refl eq_refl eq_refl eq_refl eq_refl eq_refl eq_refl)
                 (or_introl eq_refl)).
  - exact (proj2 (archived_projects_are_dropped_unless_included
                    (Samples.clientWith Samples.projectOnly "" Samples.upstreamNodes)
                    Samples.searchByNameAll
                    (JsObject [("name", JsObject [("contains", JsString "Alpha")])])
                    JsUndefined (JsBool true)
                    (Samples.foundProjects Samples.upstreamNodes)
                    (mkProjectConnection (Some Samples.upstreamNodes))
                    Samples.upstreamNodes
                    eq_refl eq_refl eq_refl eq_refl eq_refl eq_refl eq_refl)
                 eq_refl).
Defined.

(** C6.  A search that reaches the gateway and is answered a list of
    projects of which none is left after the archived-state filter (or none
    at all when [includeArchived] is set).  The handler returns the text
    "No projects found matching the search criteria ", followed by the name
    searched for between single quotes when a name was given; nothing is
    raised. *)
Theorem no_match_is_reported_as_text
  (client : LinearGraphQLClient) (args query limit flag name : JsValue)
  (result : SearchProjectsResult) (connection : ProjectConnection)
  (found : list ProjectNode) (shown : string) :
  requireNameOrTeamIds args = Ok tt ->
  buildFilter args = Ok query ->
  getProp args "first" = Ok limit ->
  getProp args "includeArchived" = Ok flag ->
  getProp args "name" = Ok name ->
  toStringJs name = Ok shown ->
  searchProjects client query (jsOr limit (JsNumber 50)) = Ok result ->
  projects result = Some connection ->
  nodes connection = Some found ->
  (if truthy flag then found
   else filter (fun project => negb (hasArchivedState project)) found) = [] ->
  handleSearchProjects (Some client) args
  = ([CallSearchProjects query (jsOr limit (JsNumber 50))],
     Returned (TextResponse
                 ("No projects found matching the search criteria "
                  ++ if truthy name then "'" ++ shown ++ "'" else ""))).
Proof.
  intros Hcheck Hquery Hlimit Hflag Hname Hshown Hanswer Hp Hn Hnone.
  rewrite (search_accepted client args query limit flag (Ok result)
             Hcheck Hquery Hlimit Hflag Hanswer).
  rewrite (dropArchived_found flag result connection found Hp Hn).
  f_equal. unfold searchResponse, noMatchText.
  destruct (truthy flag).
  - rewrite Hp, Hn. subst found. simpl. rewrite Hname. simpl.
    destruct (truthy name); simpl; [rewrite Hshown|]; reflexivity.
  - simpl. rewrite Hnone. simpl. rewrite Hname. simpl.
    destruct (truthy name); simpl; [rewrite Hshown|]; reflexivity.
Qed.

Lemma no_match_is_reported_as_text_witness :
  handleSearchProjects
    (Some (Samples.clientWith Samples.projectOnly ""
             [Samples.archivedNode; Samples.canceledNode]))
    Samples.searchByName
  = ([CallSearchProjects
        (JsObject [("name", JsObject [("contains", JsString "Alpha")])])
        (jsOr JsUndefined (JsNumber 50))],
     Returned (TextResponse
                 ("No projects found matching the search criteria "
                  ++ if truthy (JsString "Alpha") then "'" ++ "Alpha" ++ "'" else ""))).
Proof.
  apply (no_match_is_reported_as_text
           (Samples.clientWith Samples.projectOnly ""
              [Samples.archivedNode; Samples.canceledNode])
           Samples.searchByName
           (JsObject [("name", JsObject [("contains", JsString "Alpha")])])
           JsUndefined JsUndefined (JsString "Alpha")
           (Samples.foundProjects [Samples.archivedNode; Samples.canceledNode])
           (mkProjectConnection (Some [Samples.archivedNode; Samples.canceledNode]))
           [Samples.archivedNode; Samples.canceledNode] "Alpha");
    reflexivity.
Defined.

(** ** The arguments of a search *)

Lemma requireNameOrTeamIds_spec (args name teamIds : JsValue) :
  getProp args "name" = Ok name ->
  getProp args "teamIds" = Ok teamIds ->
  requireNameOrTeamIds args
  = if negb (truthy name) && negb (nonEmptyArray teamIds)
    then Throw (mkError Error nameOrTeamIdsMessage)
    else Ok tt.
Proof.
  intros Hname Hteams. unfold requireNameOrTeamIds. rewrite Hname. simpl.
  destruct (truthy name); simpl; [reflexivity|].
  rewrite Hteams. simpl. rewrite notNonEmptyArray_spec. simpl.
  now destruct (nonEmptyArray teamIds).
Qed.

(** C8.  The session is valid.  A search given neither a (truthy) name nor a
    non-empty [teamIds] list fails before any gateway call with the error
    "At least a project name or teamIds must be provided for search", which
    names both alternatives.  Given one of the two, the check passes, and
    the search goes to the gateway as soon as its filter is built. *)
Theorem search_requires_name_or_teamIds
  (client : LinearGraphQLClient) (args name teamIds : JsValue) :
  getProp args "name" = Ok name ->
  getProp args "teamIds" = Ok teamIds ->
  (truthy name = false /\ nonEmptyArray teamIds = false ->
   handleSearchProjects (Some client) args
   = ([], Raised (handleError
                    (mkError Error
                       "At least a project name or teamIds must be provided for search")
                    "search projects"))
   /\ includes (message
                  (handleError
                     (mkError Error
                        "At least a project name or teamIds must be provided for search")
                     "search projects"))
               "name" = true
   /\ includes (message
                  (handleError
                     (mkError Error
                        "At least a project name or teamIds must be provided for search")
                     "search projects"))
               "teamIds" = true)
  /\ (truthy name = true \/ nonEmptyArray teamIds = true ->
      requireNameOrTeamIds args = Ok tt
      /\ forall query, buildFilter args = Ok query ->
           exists first outcome,
             handleSearchProjects (Some client) args
             = ([CallSearchProjects query first], outcome)).
Proof.
  intros Hname Hteams. split.
  - intros [Hn Ht]. split; [| split; reflexivity].
    apply search_rejected.
    rewrite (requireNameOrTeamIds_spec args name teamIds Hname Hteams), Hn, Ht.
    reflexivity.
  - intros Hgiven.
    assert (Hcheck : requireNameOrTeamIds args = Ok tt).
    { rewrite (requireNameOrTeamIds_spec args name teamIds Hname Hteams).
      destruct Hgiven as [-> | ->]; [reflexivity|]. now rewrite andb_false_r. }
    split; [exact Hcheck|]. intros query Hquery.
    assert (Hargs : nullish args = false)
      by (destruct args; try reflexivity; discriminate Hname).
    pose proof (getProp_ownProp args "first" Hargs eq_refl) as Hfirst.
    pose proof (getProp_ownProp args "includeArchived" Hargs eq_refl) as Hflag.
    eexists. eexists.
    exact (search_accepted client args query _ _ _ Hcheck Hquery Hfirst Hflag eq_refl).
Qed.

Lemma search_requires_name_or_teamIds_witness :
  handleSearchProjects (Some (Samples.clientWith Samples.projectOnly "" []))
                       Samples.searchEmpty
  = ([], Raised (handleError
                   (mkError Error
                      "At least a project name or teamIds must be provided for search")
                   "search projects"))
  /\ requireNameOrTeamIds Samples.searchByName = Ok tt.
Proof.
  split.
  - exact (proj1 (proj1 (search_requires_name_or_teamIds
                           (Samples.clientWith Samples.projectOnly "" [])
                           Samples.searchEmpty JsUndefined (JsArray []) eq_refl eq_refl)
                        (conj eq_refl eq_refl))).
  - exact (proj1 (proj2 (search_requires_name_or_teamIds
                           (Samples.clientWith Samples.projectOnly "" [])
                           Samples.searchByName (JsString "Alpha") JsUndefined
                           eq_refl eq_refl)
                        (or_introl eq_refl))).
Defined.

(** The clauses of the filter follow the truthiness of [name] and the
    positive length of [teamIds]; whether [teamIds] is a list is not asked. *)
Lemma buildFilter_clauses (args name teamIds query : JsValue) :
  getProp args "name" = Ok name ->
  getProp args "teamIds" = Ok teamIds ->
  buildFilter args = Ok query ->
  exists teams,
    hasTeamIds teamIds = Ok teams
    /\ query
       = JsObject
           ((if truthy name then [("name", JsObject [("contains", name)])] else [])
            ++ (if teams
                then [("team", JsObject [("id", JsObject [("in", teamIds)])])]
                else []))%list.
Proof.
  intros Hname Hteams. unfold buildFilter. rewrite Hname, Hteams. simpl.
  destruct (hasTeamIds teamIds) as [teams | |]; simpl; try discriminate.
  intros [= <-]. exists teams. split; [reflexivity|].
  destruct teams; [reflexivity | now rewrite app_nil_r].
Qed.

Lemma hasTeamIds_of_list (items : list JsValue) :
  hasTeamIds (JsArray items) = Ok (nonEmptyArray (JsArray items)).
Proof.
  unfold hasTeamIds. simpl. destruct items as [|x rest]; [reflexivity|].
  simpl. now destruct (Pos.of_succ_nat (List.length rest)).
Qed.

(** For a [teamIds] that is a list, or is not given, the filter has a name
    clause exactly when a name is given and a team clause exactly when the
    list is not empty. *)
Lemma buildFilter_of_list (args name teamIds : JsValue) :
  getProp args "name" = Ok name ->
  getProp args "teamIds" = Ok teamIds ->
  teamIds = JsUndefined \/ isArray teamIds = true ->
  buildFilter args
  = Ok (JsObject
          ((if truthy name then [("name", JsObject [("contains", name)])] else [])
           ++ (if nonEmptyArray teamIds
               then [("team", JsObject [("id", JsObject [("in", teamIds)])])]
               else []))%list).
Proof.
  intros Hname Hteams Hlist. unfold buildFilter. rewrite Hname, Hteams. simpl.
  destruct Hlist as [-> | Harray].
  - simpl. now rewrite app_nil_r.
  - destruct teamIds as [| | | | |items|]; try discriminate Harray.
    rewrite hasTeamIds_of_list. simpl.
    destruct items; [now rewrite app_nil_r | reflexivity].
Qed.

(** The limit sent upstream is [first] when it is given (and truthy), [50]
    otherwise. *)
Lemma default_limit (limit : JsValue) :
  truthy limit = false -> jsOr limit (JsNumber 50) = JsNumber 50.
Proof. intros H. unfold jsOr. now rewrite H. Qed.

(** C9 fails on the source.  A search by name whose [teamIds] is the string
    "team-1", not a list: the check of the arguments lets it through on the
    name, and the filter sent upstream carries a team clause built from the
    string. *)
Theorem team_clause_built_from_a_string :
  isArray (JsString "team-1") = false
  /\ fst (handleSearchProjects
            (Some (Samples.clientWith Samples.projectOnly "" Samples.upstreamNodes))
            Samples.searchTeamAsString)
     = [CallSearchProjects
          (JsObject [("name", JsObject [("contains", JsString "Alpha")]);
                     ("team", JsObject [("id", JsObject [("in", JsString "team-1")])])])
          (JsNumber 50)].
Proof. split; reflexivity. Qed.

(** ** Without a session *)

(** C4.  Without a valid session each handler fails with [AuthError],
    whatever the arguments are (valid or not), and no gateway call is
    made. *)
Theorem unauthenticated_invocation_fails_first (tool : Tool) (args : JsValue) :
  exists e,
    handle tool None args = ([], Raised e) /\ errName e = AuthError.
Proof.
  exists (mkError AuthError "no valid session").
  destruct tool; split; reflexivity.
Qed.

(** ** Arguments that break a rule *)

Lemma isUndefined_true (v : JsValue) : isUndefined v = true -> v = JsUndefined.
Proof. destruct v; simpl; intros H; try discriminate H; reflexivity. Qed.

Lemma ownProp_defined_object (args : JsValue) (k : string) :
  isUndefined (ownProp args k) = false -> exists props, args = JsObject props.
Proof.
  destruct args; simpl; intros H; try discriminate H. now eexists.
Qed.

(** On a list without [null] elements the [forEach] either passes, every
    issue having a truthy [teamId], or stops at an issue that has none. *)
Lemma forEachIssue_total (items : list JsValue) :
  Forall (fun issue => nullish issue = false) items ->
  forall base,
    (forEachIssue items base = Ok tt
     /\ forall i issue, nth_error items i = Some issue ->
                        truthy (ownProp issue "teamId") = true)
    \/ (exists i issue,
          nth_error items i = Some issue
          /\ truthy (ownProp issue "teamId") = false
          /\ forEachIssue items base = Throw (mkError Error (issueTeamIdMessage (base + i)))).
Proof.
  induction 1 as [|x rest Hx _ IH]; intros base.
  - left. split; [reflexivity|]. intros [|i] issue H; discriminate H.
  - simpl. rewrite (getProp_ownProp x "teamId" Hx eq_refl). simpl.
    destruct (truthy (ownProp x "teamId")) eqn:Hteam; simpl.
    + destruct (IH (S base)) as [[Hok Hall] | [i [issue [Hnth [Hfalsy Hthrow]]]]].
      * left. split; [exact Hok|]. intros [|i] issue Hnth; simpl in Hnth.
        -- now injection Hnth as <-.
        -- exact (Hall i issue Hnth).
      * right. exists (S i), issue. repeat split; try assumption.
        rewrite Hthrow. now rewrite Nat.add_succ_r.
    + right. exists 0, x. repeat split; try assumption.
      now rewrite Nat.add_0_r.
Qed.

Lemma issueTeamIdMessage_names_teamId (i : nat) :
  includes ("Failed to create project with issues: " ++ issueTeamIdMessage i) "teamId"
  = true.
Proof.
  unfold issueTeamIdMessage.
  apply includes_after, includes_after, includes_after. reflexivity.
Qed.

(** C5 (as amended).  The session is valid and no [null] stands where an
    object is expected.  If the arguments miss a required field or break a
    structural rule, the handler fails without a single gateway call, and
    the message of the error names a field at fault.  The error is a
    [ValidationError] when a required field is missing; when a structural
    rule is broken it is the plain [Error] the source raises. *)
Theorem invalid_arguments_never_reach_the_gateway
  (tool : Tool) (client : LinearGraphQLClient) (args : JsValue) (field : string) :
  WellShaped tool args ->
  Violates tool args field ->
  exists e named,
    handle tool (Some client) args = ([], Raised e)
    /\ Violates tool args named
    /\ includes (message e) named = true
    /\ errName e = if missingRequired tool args then ValidationError else Error.
Proof.
  intros Hshape Hbroken. destruct tool.
  - (* create project with issues *)
    destruct Hshape as [Hproject Hitems]. cbn [handle].
    unfold missingRequired. cbn [requiredFields existsb].
    destruct (isUndefined (ownProp args "project")) eqn:Hp.
    { exists (mkError ValidationError "missing field project"), "project".
      repeat split.
      - rewrite (create_rejected client args (mkError ValidationError "missing field project"));
          [reflexivity|].
        unfold validateProjectWithIssues, validateRequiredParams. now rewrite Hp.
      - apply required_missing; [now left | now apply isUndefined_true]. }
    destruct (isUndefined (ownProp args "issues")) eqn:Hi.
    { exists (mkError ValidationError "missing field issues"), "issues".
      repeat split.
      - rewrite (create_rejected client args (mkError ValidationError "missing field issues"));
          [reflexivity|].
        unfold validateProjectWithIssues, validateRequiredParams. now rewrite Hp, Hi.
      - apply required_missing; [now right; left | now apply isUndefined_true]. }
    destruct (ownProp_defined_object args "project" Hp) as [props ->].
    cbn [ownProp] in *.
    assert (Hnn : nullish (lookupProp "project" props) = false).
    { destruct (lookupProp "project" props); try reflexivity;
        [discriminate Hp | now elim Hproject]. }
    pose proof (validate_object props Hp Hi) as Hvalidate.
    rewrite (getProp_ownProp _ "teamIds" Hnn eq_refl) in Hvalidate.
    cbn [rbind] in Hvalidate. rewrite notNonEmptyArray_spec in Hvalidate.
    cbn [rbind] in Hvalidate.
    destruct (nonEmptyArray (ownProp (lookupProp "project" props) "teamIds")) eqn:Hteams;
      cbn [negb] in Hvalidate.
    2:{ exists (handleError (mkError Error teamIdsMessage) "create project with issues"),
               "teamIds".
        repeat split.
        - now apply create_rejected.
        - now apply teamIds_not_a_list. }
    destruct (isArray (lookupProp "issues" props)) eqn:Harray; cbn [negb] in Hvalidate.
    2:{ exists (handleError (mkError Error issuesMessage) "create project with issues"),
               "issues".
        repeat split.
        - now apply create_rejected.
        - now apply issues_not_a_list. }
    destruct (lookupProp "issues" props) as [| | | | |items|] eqn:Hissues;
      try discriminate Harray.
    cbn [itemsOf] in Hvalidate.
    destruct (forEachIssue_total items (Hitems items eq_refl) 0)
      as [[Hok Hall] | [i [issue [Hnth [Hfalsy Hthrow]]]]].
    + exfalso. inversion Hbroken as [t a k Hin Hk | a Ht | a Ha | a l i issue Hl Hnth Hf | ];
        subst.
      * cbn [requiredFields] in Hin. cbn [ownProp] in Hk.
        destruct Hin as [<- | [<- | []]].
        -- rewrite Hk in Hp. discriminate Hp.
        -- rewrite Hk in Hissues. discriminate Hissues.
      * cbn [ownProp] in Ht. rewrite Ht in Hteams. discriminate Hteams.
      * cbn [ownProp] in Ha. rewrite Hissues in Ha. discriminate Ha.
      * cbn [ownProp] in Hl. rewrite Hissues in Hl. injection Hl as <-.
        rewrite (Hall i issue Hnth) in Hf. discriminate Hf.
    + exists (handleError (mkError Error (issueTeamIdMessage i)) "create project with issues"),
             "teamId".
      repeat split.
      * apply create_rejected. now rewrite Hvalidate, Hthrow.
      * now apply (issue_without_teamId _ items i issue).
      * exact (issueTeamIdMessage_names_teamId i).
  - (* get project *)
    inversion Hbroken as [t a k Hin Hk | | | | ]; subst.
    cbn [requiredFields] in Hin. destruct Hin as [<- | []].
    exists (mkError ValidationError "missing field id"), "id".
    unfold missingRequired. cbn [requiredFields existsb handle]. rewrite Hk.
    repeat split.
    + unfold handleGetProject, getProjectBody, validateRequiredParams.
      rewrite Hk. reflexivity.
    + apply required_missing; [now left | exact Hk].
  - (* search projects *)
    inversion Hbroken as [t a k Hin Hk | | | | a Hname Hteams]; subst.
    { cbn [requiredFields] in Hin. destruct Hin. }
    cbn [WellShaped] in Hshape.
    exists (handleError (mkError Error nameOrTeamIdsMessage) "search projects"), "teamIds".
    repeat split.
    + apply search_rejected.
      rewrite (requireNameOrTeamIds_spec args _ _
                 (getProp_ownProp args "name" Hshape eq_refl)
                 (getProp_ownProp args "teamIds" Hshape eq_refl)).
      now rewrite Hname, Hteams.
    + exact Hbroken.
Qed.

Lemma invalid_arguments_never_reach_the_gateway_witness :
  exists e named,
    handleCreateProjectWithIssues
      (Some (Samples.clientWith Samples.bothCreated "" [])) Samples.createArgsNoTeams
    = ([], Raised e)
    /\ Violates CreateProjectWithIssues Samples.createArgsNoTeams named
    /\ includes (message e) named = true
    /\ errName e = Error.
Proof.
  apply (invalid_arguments_never_reach_the_gateway
           CreateProjectWithIssues
           (Samples.clientWith Samples.bothCreated "" [])
           Samples.createArgsNoTeams "teamIds").
  - split; [discriminate|].
    intros items H. injection H as <-. repeat constructor.
  - apply teamIds_not_a_list. reflexivity.
Defined.

(** C5 (as stated) fails.  The project of the invocation has no [teamIds]: a
    structural rule is broken.  The handler fails without a gateway call and
    the message names [teamIds], but the error raised is a plain [Error],
    not a [ValidationError]. *)
Lemma structural_failure_is_a_plain_error :
  Violates CreateProjectWithIssues Samples.createArgsNoTeams "teamIds"
  /\ handleCreateProjectWithIssues
       (Some (Samples.clientWith Samples.bothCreated "" [])) Samples.createArgsNoTeams
     = ([], Raised (mkError Error
                      ("Failed to create project with issues: " ++ teamIdsMessage)))
  /\ errName (mkError Error ("Failed to create project with issues: " ++ teamIdsMessage))
     <> ValidationError.
Proof.
  split; [| split].
  - apply teamIds_not_a_list. reflexivity.
  - reflexivity.
  - discriminate.
Qed.

(** ** The scenarios of the specification, run *)

Example scenario_project_with_one_issue :
  handleCreateProjectWithIssues
    (Some (Samples.clientWith Samples.bothCreated "" [])) Samples.createArgs
  = ([CallCreateProjectWithIssues Samples.projectArg Samples.issuesArg],
     Returned (TextResponse
       (String.concat nl
          [ "Successfully created project with issues";
            "Project: Q1 Planning";
            "Project URL: https://linear.app/acme/project/q1-planning";
            "Issues created: 1";
            "- ENG-1: Setup (https://linear.app/acme/issue/ENG-1)" ]))).
Proof. reflexivity. Qed.

Example scenario_unknown_project :
  handleGetProject
    (Some (Samples.clientWith Samples.projectOnly
             "Could not find referenced Project" []))
    Samples.getArgs
  = ([CallGetProject (JsString "proj-404")],
     Returned (TextResponse (notFoundText "proj-404"))).
Proof. reflexivity. Qed.

(** Another failure of the lookup is raised, with the operation named. *)
Example scenario_lookup_outage :
  handleGetProject
    (Some (Samples.clientWith Samples.projectOnly "socket hang up" []))
    Samples.getArgs
  = ([CallGetProject (JsString "proj-404")],
     Raised (mkError Error "Failed to get project info: socket hang up")).
Proof. reflexivity. Qed.

(** A [null] in the issue list is no issue object: reading its [teamId]
    raises a [TypeError] before the rule on [teamId] is evaluated. *)
Example scenario_null_issue :
  handleCreateProjectWithIssues
    (Some (Samples.clientWith Samples.bothCreated "" []))
    (JsObject [("project", Samples.projectArg); ("issues", JsArray [JsNull])])
  = ([], Raised (mkError TypeError
                   ("Failed to create project with issues: "
                    ++ "Cannot read properties of null (reading 'teamId')"))).
Proof. reflexivity. Qed.

(** When project creation itself fails, the same generic error is raised. *)
Example scenario_project_not_created :
  handleCreateProjectWithIssues
    (Some (Samples.clientWith
             (mkCreateResult (mkProjectCreate false Samples.q1Project) None) "" []))
    Samples.createArgs
  = ([CallCreateProjectWithIssues Samples.projectArg Samples.issuesArg],
     Raised (mkError Error
               "Failed to create project with issues: Failed to create project or issues")).
Proof. reflexivity. Qed.

(** * Further properties of the handlers *)

(** ** More on strings *)

Lemma prefix_weaken (s : string) :
  forall t b, String.prefix s t = true -> String.prefix s (t ++ b) = true.
Proof.
  induction s as [|a s IH]; intros t b H.
  - now destruct (t ++ b).
  - destruct t as [|c t]; [discriminate H|]. simpl in *.
    destruct (ascii_dec a c); [now apply IH | discriminate H].
Qed.

Lemma includes_before (t b s : string) :
  includes t s = true -> includes (t ++ b) s = true.
Proof.
  induction t as [|c t IH]; intros H.
  - destruct s; [now destruct b | discriminate H].
  - change (includes (String c t ++ b) s)
      with (if String.prefix s (String c t ++ b) then true else includes (t ++ b) s).
    change (includes (String c t) s)
      with (if String.prefix s (String c t) then true else includes t s) in H.
    destruct (String.prefix s (String c t)) eqn:Hp.
    + now rewrite (prefix_weaken s (String c t) b Hp).
    + rewrite (IH H). now destruct (String.prefix s (String c t ++ b)).
Qed.

Lemma append_nil_r_eq (s : string) : s ++ "" = s.
Proof. induction s as [|c s IH]; simpl; [reflexivity | now rewrite IH]. Qed.

(** A joined text contains whatever one of its lines contains. *)
Lemma includes_concat (sep s line : string) (lines : list string) :
  In line lines -> includes line s = true ->
  includes (String.concat sep lines) s = true.
Proof.
  intros Hin Hs. induction lines as [|x rest IH]; [destruct Hin|].
  destruct rest as [|y rest].
  - destruct Hin as [-> | []]. exact Hs.
  - change (String.concat sep (x :: y :: rest))
      with (x ++ sep ++ String.concat sep (y :: rest)).
    destruct Hin as [-> | Hin].
    + now apply includes_before.
    + apply includes_after, includes_after. now apply IH.
Qed.

(** ** Creating a project with issues *)

Lemma create_forwarded (client : LinearGraphQLClient) (args project issues : JsValue) :
  validateProjectWithIssues args = Ok tt ->
  getProp args "project" = Ok project ->
  getProp args "issues" = Ok issues ->
  fst (handleCreateProjectWithIssues (Some client) args)
  = [CallCreateProjectWithIssues project issues].
Proof.
  intros Hv Hp Hi.
  unfold handleCreateProjectWithIssues, createProjectWithIssuesBody.
  simpl. rewrite Hv. simpl. rewrite Hp. simpl. rewrite Hi. simpl.
  destruct (createProjectWithIssues client project issues) as [result | e |];
    [destruct (creationFailed result) | |]; reflexivity.
Qed.

(** X1.  Arguments that break no rule are forwarded: the handler makes
    exactly one gateway call, and the call carries [args.project] and
    [args.issues] as they were given. *)
Theorem rule_free_arguments_are_forwarded
  (client : LinearGraphQLClient) (args : JsValue) :
  WellShaped CreateProjectWithIssues args ->
  (forall field, ~ Violates CreateProjectWithIssues args field) ->
  fst (handleCreateProjectWithIssues (Some client) args)
  = [CallCreateProjectWithIssues (ownProp args "project") (ownProp args "issues")].
Proof.
  intros [Hproject Hitems] Hfree.
  destruct (isUndefined (ownProp args "project")) eqn:Hp.
  { elim (Hfree "project"). apply required_missing;
      [now left | now apply isUndefined_true]. }
  destruct (isUndefined (ownProp args "issues")) eqn:Hi.
  { elim (Hfree "issues"). apply required_missing;
      [now right; left | now apply isUndefined_true]. }
  destruct (ownProp_defined_object args "project" Hp) as [props ->].
  cbn [ownProp] in *.
  assert (Hnn : nullish (lookupProp "project" props) = false).
  { destruct (lookupProp "project" props); try reflexivity;
      [discriminate Hp | now elim Hproject]. }
  destruct (nonEmptyArray (ownProp (lookupProp "project" props) "teamIds")) eqn:Hteams.
  2:{ elim (Hfree "teamIds"). now apply teamIds_not_a_list. }
  destruct (isArray (lookupProp "issues" props)) eqn:Harray.
  2:{ elim (Hfree "issues"). now apply issues_not_a_list. }
  destruct (lookupProp "issues" props) as [| | | | |items|] eqn:Hissues;
    try discriminate Harray.
  apply create_forwarded; [| reflexivity | simpl; now rewrite Hissues].
  rewrite (validate_object props Hp); [| now rewrite Hissues].
  rewrite (getProp_ownProp _ "teamIds" Hnn eq_refl). cbn [rbind].
  rewrite notNonEmptyArray_spec, Hteams, Hissues. cbn [rbind negb isArray itemsOf].
  destruct (forEachIssue_total items (Hitems items eq_refl) 0)
    as [[Hok _] | [i [issue [Hnth [Hfalsy _]]]]]; [exact Hok|].
  elim (Hfree "teamId"). apply (issue_without_teamId _ items i issue); auto.
Qed.

Lemma rule_free_arguments_are_forwarded_witness :
  fst (handleCreateProjectWithIssues
         (Some (Samples.clientWith Samples.bothCreated "" [])) Samples.createArgs)
  = [CallCreateProjectWithIssues Samples.projectArg Samples.issuesArg].
Proof.
  apply (rule_free_arguments_are_forwarded
           (Samples.clientWith Samples.bothCreated "" []) Samples.createArgs).
  - split; [discriminate|].
    intros items H. injection H as <-. repeat constructor.
  - intros field H.
    inversion H as [t a k Hin Hk | a Ht | a Ha | a l i issue Hl Hnth Hf | ]; subst.
    + destruct Hin as [<- | [<- | []]]; discriminate Hk.
    + discriminate Ht.
    + discriminate Ha.
    + injection Hl as <-. destruct i as [|[|i]]; simpl in Hnth;
        [injection Hnth as <-; discriminate Hf | discriminate Hnth | discriminate Hnth].
Defined.

(** X2.  A success response is only ever returned after the gateway was
    called once, answered, reported the project created and reported no
    failed batch; the response is then the text joined from the success
    lines of that answer. *)
Theorem success_means_created
  (session : option LinearGraphQLClient) (args : JsValue)
  (calls : list GatewayCall) (response : BaseToolResponse) :
  handleCreateProjectWithIssues session args = (calls, Returned response) ->
  exists client project issues result,
    session = Some client
    /\ calls = [CallCreateProjectWithIssues project issues]
    /\ createProjectWithIssues client project issues = Ok result
    /\ pc_success (projectCreate result) = true
    /\ (forall batch, issueBatchCreate result = Some batch -> ibc_success batch = true)
    /\ response = TextResponse (String.concat nl (successLines result)).
Proof.
  unfold handleCreateProjectWithIssues, createProjectWithIssuesBody.
  destruct session as [client|]; simpl; [| discriminate].
  destruct (validateProjectWithIssues args) as [[] | e |]; simpl; try discriminate.
  destruct (getProp args "project") as [project | e |]; simpl; try discriminate.
  destruct (getProp args "issues") as [issues | e |]; simpl; try discriminate.
  destruct (createProjectWithIssues client project issues) as [result | e |] eqn:Hc;
    simpl; try discriminate.
  destruct (creationFailed result) eqn:Hf; simpl; [discriminate|].
  intros [= <- <-]. exists client, project, issues, result.
  unfold creationFailed in Hf. apply orb_false_elim in Hf as [Hs Hb].
  apply negb_false_iff in Hs.
  repeat split; auto.
  intros batch Hbatch. rewrite Hbatch in Hb. now apply negb_false_iff in Hb.
Qed.

Lemma success_means_created_witness :
  exists client project issues result,
    Some (Samples.clientWith Samples.bothCreated "" []) = Some client
    /\ [CallCreateProjectWithIssues Samples.projectArg Samples.issuesArg]
       = [CallCreateProjectWithIssues project issues]
    /\ createProjectWithIssues client project issues = Ok result
    /\ pc_success (projectCreate result) = true
    /\ (forall batch, issueBatchCreate result = Some batch -> ibc_success batch = true)
    /\ TextResponse (String.concat nl (successLines Samples.bothCreated))
       = TextResponse (String.concat nl (successLines result)).
Proof.
  apply (success_means_created
           (Some (Samples.clientWith Samples.bothCreated "" [])) Samples.createArgs).
  reflexivity.
Defined.

(** X3.  When the answer reports the project as not created, the handler
    fails with the generic error after its one call, whatever the answer
    says about the batch. *)
Theorem project_failure_dominates
  (client : LinearGraphQLClient) (args project issues : JsValue)
  (result : CreateProjectWithIssuesResult) :
  validateProjectWithIssues args = Ok tt ->
  getProp args "project" = Ok project ->
  getProp args "issues" = Ok issues ->
  createProjectWithIssues client project issues = Ok result ->
  pc_success (projectCreate result) = false ->
  handleCreateProjectWithIssues (Some client) args
  = ([CallCreateProjectWithIssues project issues],
     Raised (handleError (mkError Error "Failed to create project or issues")
                         "create project with issues")).
Proof.
  intros Hv Hp Hi Hc Hs.
  rewrite (create_accepted client args project issues result Hv Hp Hi Hc).
  unfold creationFailed. now rewrite Hs.
Qed.

Lemma project_failure_dominates_witness :
  handleCreateProjectWithIssues
    (Some (Samples.clientWith
             (mkCreateResult (mkProjectCreate false Samples.q1Project)
                             (Some (mkIssueBatchCreate true [Samples.setupIssue])))
             "" []))
    Samples.createArgs
  = ([CallCreateProjectWithIssues Samples.projectArg Samples.issuesArg],
     Raised (handleError (mkError Error "Failed to create project or issues")
                         "create project with issues")).
Proof.
  apply (project_failure_dominates
           (Samples.clientWith
              (mkCreateResult (mkProjectCreate false Samples.q1Project)
                              (Some (mkIssueBatchCreate true [Samples.setupIssue])))
              "" [])
           Samples.createArgs Samples.projectArg Samples.issuesArg
           (mkCreateResult (mkProjectCreate false Samples.q1Project)
                           (Some (mkIssueBatchCreate true [Samples.setupIssue]))));
    reflexivity.
Defined.

(** X4.  A batch that succeeded without creating any issue is reported like
    no batch at all: the text has the heading, the project name and the
    project URL, and no "Issues created" line. *)
Theorem empty_batch_is_not_mentioned
  (client : LinearGraphQLClient) (args project issues : JsValue)
  (result : CreateProjectWithIssuesResult) (batch : IssueBatchCreate) :
  validateProjectWithIssues args = Ok tt ->
  getProp args "project" = Ok project ->
  getProp args "issues" = Ok issues ->
  createProjectWithIssues client project issues = Ok result ->
  pc_success (projectCreate result) = true ->
  issueBatchCreate result = Some batch ->
  ibc_success batch = true ->
  ibc_issues batch = [] ->
  handleCreateProjectWithIssues (Some client) args
  = ([CallCreateProjectWithIssues project issues],
     Returned (TextResponse
       (String.concat nl
          [ "Successfully created project with issues";
            "Project: " ++ project_name (pc_project (projectCreate result));
            "Project URL: " ++ project_url (pc_project (projectCreate result)) ]))).
Proof.
  intros Hv Hp Hi Hc Hs Hb Hok Hnone.
  rewrite (create_accepted client args project issues result Hv Hp Hi Hc).
  unfold creationFailed, successLines, issuesCreated.
  rewrite Hs, Hb, Hok, Hnone. reflexivity.
Qed.

Lemma empty_batch_is_not_mentioned_witness :
  handleCreateProjectWithIssues
    (Some (Samples.clientWith
             (mkCreateResult (mkProjectCreate true Samples.q1Project)
                             (Some (mkIssueBatchCreate true [])))
             "" []))
    Samples.createArgs
  = ([CallCreateProjectWithIssues Samples.projectArg Samples.issuesArg],
     Returned (TextResponse
       (String.concat nl
          [ "Successfully created project with issues";
            "Project: Q1 Planning";
            "Project URL: https://linear.app/acme/project/q1-planning" ]))).
Proof.
  apply (empty_batch_is_not_mentioned
           (Samples.clientWith
              (mkCreateResult (mkProjectCreate true Samples.q1Project)
                              (Some (mkIssueBatchCreate true [])))
              "" [])
           Samples.createArgs Samples.projectArg Samples.issuesArg
           (mkCreateResult (mkProjectCreate true Samples.q1Project)
                           (Some (mkIssueBatchCreate true [])))
           (mkIssueBatchCreate true []));
    reflexivity.
Defined.

Lemma issueLine_mentions (issue : CreatedIssue) :
  includes (issueLine issue) (identifier issue) = true
  /\ includes (issueLine issue) (title issue) = true
  /\ includes (issueLine issue) (url issue) = true.
Proof.
  unfold issueLine. repeat split.
  - apply includes_middle.
  - apply includes_after, includes_after, includes_middle.
  - apply includes_after, includes_after, includes_after, includes_after,
      includes_middle.
Qed.

(** With at least one issue created, the success lines hold the count and
    one line per issue. *)
Lemma successLines_of_batch (result : CreateProjectWithIssuesResult)
  (batch : IssueBatchCreate) (issue : CreatedIssue) :
  issueBatchCreate result = Some batch ->
  In issue (ibc_issues batch) ->
  In ("Issues created: " ++ natToString (List.length (ibc_issues batch)))
     (successLines result)
  /\ In (issueLine issue) (successLines result).
Proof.
  intros Hb Hin. unfold successLines, issuesCreated. rewrite Hb.
  destruct (ibc_issues batch) as [|first rest] eqn:Hissues; [destruct Hin|].
  cbn [List.length Nat.ltb Nat.leb]. split.
  - apply in_or_app. right. now left.
  - apply in_or_app. right. right. now apply in_map.
Qed.

(** X5.  When project and batch are both reported as created, the success
    text is returned.  If the batch created at least one issue, the text
    gives their number in an "Issues created" line, and the identifier, the
    title and the URL of every created issue occur in it.  If the batch
    created none, the text is the heading, the project name and the project
    URL, without any count. *)
Theorem every_created_issue_is_listed
  (client : LinearGraphQLClient) (args project issues : JsValue)
  (result : CreateProjectWithIssuesResult) (batch : IssueBatchCreate) :
  validateProjectWithIssues args = Ok tt ->
  getProp args "project" = Ok project ->
  getProp args "issues" = Ok issues ->
  createProjectWithIssues client project issues = Ok result ->
  pc_success (projectCreate result) = true ->
  issueBatchCreate result = Some batch ->
  ibc_success batch = true ->
  exists text,
    handleCreateProjectWithIssues (Some client) args
    = ([CallCreateProjectWithIssues project issues], Returned (TextResponse text))
    /\ (ibc_issues batch <> [] ->
        includes text ("Issues created: " ++ natToString (List.length (ibc_issues batch)))
        = true)
    /\ (forall issue, In issue (ibc_issues batch) ->
          includes text (identifier issue) = true
          /\ includes text (title issue) = true
          /\ includes text (url issue) = true)
    /\ (ibc_issues batch = [] ->
        text
        = String.concat nl
            [ "Successfully created project with issues";
              "Project: " ++ project_name (pc_project (projectCreate result));
              "Project URL: " ++ project_url (pc_project (projectCreate result)) ]).
Proof.
  intros Hv Hp Hi Hc Hs Hb Hok.
  exists (String.concat nl (successLines result)). split; [| split; [| split]].
  - rewrite (create_accepted client args project issues result Hv Hp Hi Hc).
    unfold creationFailed. now rewrite Hs, Hb, Hok.
  - intros Hsome.
    destruct (ibc_issues batch) as [|first rest] eqn:Hissues; [now elim Hsome|].
    assert (Hin : In first (ibc_issues batch)) by (rewrite Hissues; now left).
    destruct (successLines_of_batch result batch first Hb Hin) as [Hcount _].
    rewrite Hissues in Hcount.
    apply (includes_concat nl _ _ _ Hcount).
    rewrite <- (append_nil_r_eq
                  ("Issues created: " ++ natToString (List.length (first :: rest))))
      at 1.
    apply includes_here.
  - intros issue Hin.
    destruct (successLines_of_batch result batch issue Hb Hin) as [_ Hline].
    destruct (issueLine_mentions issue) as [Hid [Htitle Hurl]].
    repeat split.
    + exact (includes_concat nl _ _ _ Hline Hid).
    + exact (includes_concat nl _ _ _ Hline Htitle).
    + exact (includes_concat nl _ _ _ Hline Hurl).
  - intros Hnone. unfold successLines, issuesCreated. now rewrite Hb, Hnone.
Qed.

Lemma every_created_issue_is_listed_witness :
  exists text,
    handleCreateProjectWithIssues
      (Some (Samples.clientWith Samples.bothCreated "" [])) Samples.createArgs
    = ([CallCreateProjectWithIssues Samples.projectArg Samples.issuesArg],
       Returned (TextResponse text))
    /\ ([Samples.setupIssue] <> [] ->
        includes text ("Issues created: " ++ natToString 1) = true)
    /\ (forall issue, In issue [Samples.setupIssue] ->
          includes text (identifier issue) = true
          /\ includes text (title issue) = true
          /\ includes text (url issue) = true)
    /\ ([Samples.setupIssue] = [] ->
        text
        = String.concat nl
            [ "Successfully created project with issues";
              "Project: " ++ project_name Samples.q1Project;
              "Project URL: " ++ project_url Samples.q1Project ]).
Proof.
  apply (every_created_issue_is_listed
           (Samples.clientWith Samples.bothCreated "" []) Samples.createArgs
           Samples.projectArg Samples.issuesArg Samples.bothCreated
           (mkIssueBatchCreate true [Samples.setupIssue]));
    reflexivity.
Defined.

(** X6.  Creating a project with issues and searching projects never make
    more than one gateway call, whatever the session, the arguments and the
    answers of the gateway are. *)
Theorem at_most_one_gateway_call
  (session : option LinearGraphQLClient) (args : JsValue) :
  List.length (fst (handleCreateProjectWithIssues session args)) <= 1
  /\ List.length (fst (handleSearchProjects session args)) <= 1.
Proof.
  split.
  - unfold handleCreateProjectWithIssues, createProjectWithIssuesBody.
    destruct session as [client|]; simpl; [| lia].
    destruct (validateProjectWithIssues args) as [[] | e |]; simpl; try lia.
    destruct (getProp args "project") as [project | e |]; simpl; try lia.
    destruct (getProp args "issues") as [issues | e |]; simpl; try lia.
    destruct (createProjectWithIssues client project issues) as [result | e |];
      simpl; try lia.
    destruct (creationFailed result); simpl; lia.
  - unfold handleSearchProjects, searchProjectsBody.
    destruct session as [client|]; simpl; [| lia].
    destruct (requireNameOrTeamIds args) as [[] | e |]; simpl; try lia.
    destruct (buildFilter args) as [query | e |]; simpl; try lia.
    destruct (getProp args "first") as [limit | e |]; simpl; try lia.
    destruct (getProp args "includeArchived") as [flag | e |]; simpl; try lia.
    destruct (searchProjects client query (jsOr limit (JsNumber 50)))
      as [result | e |]; simpl; lia.
Qed.

(** ** Looking a project up, continued *)

(** The handler once the session is valid and [id] is given. *)
Lemma get_started (client : LinearGraphQLClient) (props : list (string * JsValue)) :
  isUndefined (lookupProp "id" props) = false ->
  handleGetProject (Some client) (JsObject props)
  = guarded
      (tryCatch
         (fetchProject client (JsObject props)
            (jsOr (lookupProp "includeIssues" props) (JsBool false)))
         (recoverNotFound (JsObject props)))
      "get project info".
Proof.
  intros Hid.
  unfold handleGetProject, getProjectBody, validateRequiredParams, ownProp.
  rewrite Hid. simpl.
  destruct (tryCatch _ _) as [calls r]. reflexivity.
Qed.

(** X7.  An error of the lookup that is not recognised as "not found" is
    raised again: the handler fails with that error, handed to
    [handleError], after its one call. *)
Theorem other_lookup_errors_are_raised
  (client : LinearGraphQLClient) (props : list (string * JsValue)) (error : JsError) :
  isUndefined (lookupProp "id" props) = false ->
  getProject client (lookupProp "id" props) = Throw error ->
  includes (message error) "Entity not found" = false ->
  includes (message error) "Could not find referenced Project" = false ->
  handleGetProject (Some client) (JsObject props)
  = ([CallGetProject (lookupProp "id" props)],
     Raised (handleError error "get project info")).
Proof.
  intros Hid Hlookup H1 H2. rewrite (get_started client props Hid).
  unfold fetchProject, recoverNotFound, isEntityNotFound. simpl.
  rewrite Hlookup. simpl. rewrite H1, H2. reflexivity.
Qed.

Lemma other_lookup_errors_are_raised_witness :
  handleGetProject
    (Some (Samples.clientWith Samples.projectOnly "socket hang up" []))
    Samples.getArgs
  = ([CallGetProject (JsString "proj-404")],
     Raised (handleError (mkError Error "socket hang up") "get project info")).
Proof.
  apply (other_lookup_errors_are_raised
           (Samples.clientWith Samples.projectOnly "socket hang up" [])
           [("id", JsString "proj-404")] (mkError Error "socket hang up"));
    reflexivity.
Defined.

(** X8.  The recovery also covers the second call.  The project is found,
    issues are asked for, and the search for its issues raises an error
    recognised as "not found": the handler answers that the project does not
    exist. *)
Theorem issue_search_not_found_reads_as_missing_project
  (client : LinearGraphQLClient) (props : list (string * JsValue))
  (result : GetProjectResult) (detail : ProjectDetail)
  (error : JsError) (shown : string) :
  isUndefined (lookupProp "id" props) = false ->
  toStringJs (lookupProp "id" props) = Ok shown ->
  truthy (lookupProp "includeIssues" props) = true ->
  getProject client (lookupProp "id" props) = Ok (Some result) ->
  gp_project result = Some detail ->
  searchIssues client (issuesOfProjectFilter (lookupProp "id" props)) = Throw error ->
  includes (message error) "Entity not found" = true
  \/ includes (message error) "Could not find referenced Project" = true ->
  handleGetProject (Some client) (JsObject props)
  = ([CallGetProject (lookupProp "id" props);
      CallSearchIssues (issuesOfProjectFilter (lookupProp "id" props))],
     Returned (TextResponse ("Project with ID " ++ dq ++ shown ++ dq ++ " does not exist"))).
Proof.
  intros Hid Hshown Hflag Hlookup Hdetail Hsearch Hfound.
  assert (Hrec : isEntityNotFound error = true).
  { unfold isEntityNotFound. destruct Hfound as [-> | ->]; [reflexivity|].
    apply orb_true_r. }
  rewrite (get_started client props Hid).
  unfold fetchProject, recoverNotFound, wantsIssues, jsOr. simpl.
  rewrite Hlookup, Hflag. simpl. rewrite Hflag, Hdetail. simpl.
  rewrite Hsearch. simpl. rewrite Hrec. simpl. rewrite Hshown. reflexivity.
Qed.

Lemma issue_search_not_found_reads_as_missing_project_witness :
  handleGetProject
    (Some (MoreSamples.lookupClient (Some MoreSamples.q1Found)
             (Throw (mkError Error "Entity not found: Issue"))))
    (JsObject MoreSamples.getPropsWithIssues)
  = ([CallGetProject (JsString "proj-7f3a");
      CallSearchIssues (issuesOfProjectFilter (JsString "proj-7f3a"))],
     Returned (TextResponse
                 ("Project with ID " ++ dq ++ "proj-7f3a" ++ dq ++ " does not exist"))).
Proof.
  apply (issue_search_not_found_reads_as_missing_project
           (MoreSamples.lookupClient (Some MoreSamples.q1Found)
              (Throw (mkError Error "Entity not found: Issue")))
           MoreSamples.getPropsWithIssues MoreSamples.q1Found MoreSamples.q1Detail
           (mkError Error "Entity not found: Issue") "proj-7f3a");
    try reflexivity.
  left. reflexivity.
Defined.

(** X9.  Without [includeIssues], or when the lookup answers nothing that
    has a project, there is one call and the answer of the lookup is handed
    back as it is. *)
Theorem lookup_answer_is_passed_through
  (client : LinearGraphQLClient) (props : list (string * JsValue))
  (result : option GetProjectResult) :
  isUndefined (lookupProp "id" props) = false ->
  getProject client (lookupProp "id" props) = Ok result ->
  truthy (lookupProp "includeIssues" props) = false
  \/ result = None
  \/ (exists r, result = Some r /\ gp_project r = None) ->
  handleGetProject (Some client) (JsObject props)
  = ([CallGetProject (lookupProp "id" props)],
     Returned (JsonResponse (ProjectPayload result))).
Proof.
  intros Hid Hlookup Hplain. rewrite (get_started client props Hid).
  assert (Hno : wantsIssues (jsOr (lookupProp "includeIssues" props) (JsBool false)) result
                = false).
  { unfold wantsIssues. rewrite truthy_jsOr_false.
    destruct Hplain as [-> | [-> | [r [-> ->]]]];
      [reflexivity | apply andb_false_r | apply andb_false_r]. }
  unfold fetchProject. simpl. rewrite Hlookup. simpl. rewrite Hno. reflexivity.
Qed.

Lemma lookup_answer_is_passed_through_witness :
  handleGetProject
    (Some (MoreSamples.lookupClient (Some MoreSamples.q1Found)
             (Ok (mkSearchIssuesResult None))))
    (JsObject MoreSamples.getProps)
  = ([CallGetProject (JsString "proj-7f3a")],
     Returned (JsonResponse (ProjectPayload (Some MoreSamples.q1Found)))).
Proof.
  apply (lookup_answer_is_passed_through
           (MoreSamples.lookupClient (Some MoreSamples.q1Found)
              (Ok (mkSearchIssuesResult None)))
           MoreSamples.getProps (Some MoreSamples.q1Found));
    try reflexivity.
  left. reflexivity.
Defined.

(** X10.  With [includeIssues] and a project found, a second call searches
    the issues whose project is the identifier given, and the issues it
    answers are attached to the project, whose other fields stay as they
    were; when the answer holds no list of issues the project is handed back
    unchanged. *)
Theorem issues_are_attached_when_asked
  (client : LinearGraphQLClient) (props : list (string * JsValue))
  (result : GetProjectResult) (detail : ProjectDetail) (answer : SearchIssuesResult) :
  isUndefined (lookupProp "id" props) = false ->
  truthy (lookupProp "includeIssues" props) = true ->
  getProject client (lookupProp "id" props) = Ok (Some result) ->
  gp_project result = Some detail ->
  searchIssues client (issuesOfProjectFilter (lookupProp "id" props)) = Ok answer ->
  handleGetProject (Some client) (JsObject props)
  = ([CallGetProject (lookupProp "id" props);
      CallSearchIssues
        (JsObject [("project",
                    JsObject [("id", JsObject [("eq", lookupProp "id" props)])])])],
     Returned (JsonResponse (ProjectPayload (Some
       match si_issues answer with
       | Some connection =>
           match issue_nodes connection with
           | Some found =>
               mkGetProjectResult
                 (Some (mkProjectDetail (detail_id detail) (detail_name detail)
                                        (Some found)))
           | None => result
           end
       | None => result
       end)))).
Proof.
  intros Hid Hflag Hlookup Hdetail Hsearch. rewrite (get_started client props Hid).
  unfold fetchProject, wantsIssues, jsOr. simpl.
  rewrite Hlookup, Hflag. simpl. rewrite Hflag, Hdetail. simpl.
  rewrite Hsearch. simpl.
  destruct (si_issues answer) as [connection|]; [| reflexivity].
  destruct (issue_nodes connection) as [found|]; [| reflexivity].
  simpl. unfold attachIssues. rewrite Hdetail. reflexivity.
Qed.

Lemma issues_are_attached_when_asked_witness :
  handleGetProject
    (Some (MoreSamples.lookupClient (Some MoreSamples.q1Found)
             (Ok (mkSearchIssuesResult
                    (Some (mkIssueConnection (Some [MoreSamples.setupNode])))))))
    (JsObject MoreSamples.getPropsWithIssues)
  = ([CallGetProject (JsString "proj-7f3a");
      CallSearchIssues
        (JsObject [("project",
                    JsObject [("id", JsObject [("eq", JsString "proj-7f3a")])])])],
     Returned (JsonResponse (ProjectPayload (Some
       (mkGetProjectResult
          (Some (mkProjectDetail "proj-7f3a" "Q1 Planning"
                                 (Some [MoreSamples.setupNode])))))))).
Proof.
  apply (issues_are_attached_when_asked
           (MoreSamples.lookupClient (Some MoreSamples.q1Found)
              (Ok (mkSearchIssuesResult
                     (Some (mkIssueConnection (Some [MoreSamples.setupNode]))))))
           MoreSamples.getPropsWithIssues MoreSamples.q1Found MoreSamples.q1Detail
           (mkSearchIssuesResult
              (Some (mkIssueConnection (Some [MoreSamples.setupNode])))));
    reflexivity.
Defined.

(** X11.  The calls of a lookup, in order, are always a prefix of: the
    lookup of [args.id], then the search of the issues of that same
    identifier.  The second call is made only when [includeIssues] is
    truthy. *)
Theorem lookup_calls_are_ordered
  (session : option LinearGraphQLClient) (args : JsValue) :
  fst (handleGetProject session args) = []
  \/ fst (handleGetProject session args) = [CallGetProject (ownProp args "id")]
  \/ (fst (handleGetProject session args)
      = [CallGetProject (ownProp args "id");
         CallSearchIssues (issuesOfProjectFilter (ownProp args "id"))]
      /\ truthy (ownProp args "includeIssues") = true).
Proof.
  destruct session as [client|]; [| now left].
  destruct (isUndefined (ownProp args "id")) eqn:Hid.
  { left. unfold handleGetProject, getProjectBody, validateRequiredParams.
    now rewrite Hid. }
  destruct (ownProp_defined_object args "id" Hid) as [props ->].
  cbn [ownProp] in *. rewrite (get_started client props Hid).
  unfold fetchProject, recoverNotFound. simpl.
  destruct (getProject client (lookupProp "id" props)) as [result | e |]; simpl.
  - destruct (wantsIssues (jsOr (lookupProp "includeIssues" props) (JsBool false)) result)
      eqn:Hwants; simpl; [| now right; left].
    right. right. split.
    + destruct (searchIssues client (issuesOfProjectFilter (lookupProp "id" props)))
        as [answer | e |]; simpl.
      * destruct (si_issues answer) as [connection|]; [| reflexivity].
        now destruct (issue_nodes connection).
      * destruct (isEntityNotFound e); simpl; [| reflexivity].
        now destruct (toStringJs (lookupProp "id" props)).
      * reflexivity.
    + unfold wantsIssues in Hwants. rewrite truthy_jsOr_false in Hwants.
      now apply andb_true_iff in Hwants.
  - right. left. destruct (isEntityNotFound e); simpl; [| reflexivity].
    now destruct (toStringJs (lookupProp "id" props)).
  - now right; left.
Qed.

(** ** Searching projects, continued *)

(** X12.  When projects are left after the filter, they are handed back as
    the JSON payload, in the order of the answer.  Whether the filter applies
    is decided by the truthiness of [includeArchived]: any truthy value
    switches it off, any falsy value leaves it on. *)
Theorem kept_projects_are_handed_back
  (client : LinearGraphQLClient) (args query limit flag : JsValue)
  (result : SearchProjectsResult) (connection : ProjectConnection)
  (found : list ProjectNode) :
  requireNameOrTeamIds args = Ok tt ->
  buildFilter args = Ok query ->
  getProp args "first" = Ok limit ->
  getProp args "includeArchived" = Ok flag ->
  searchProjects client query (jsOr limit (JsNumber 50)) = Ok result ->
  projects result = Some connection ->
  nodes connection = Some found ->
  (if truthy flag then found
   else filter (fun project => negb (hasArchivedState project)) found) <> [] ->
  handleSearchProjects (Some client) args
  = ([CallSearchProjects query (jsOr limit (JsNumber 50))],
     Returned (JsonResponse (SearchPayload
       (mkSearchProjectsResult
          (Some (mkProjectConnection
                   (Some (if truthy flag then found
                          else filter (fun project => negb (hasArchivedState project))
                                      found)))))))).
Proof.
  intros Hcheck Hquery Hlimit Hflag Hanswer Hp Hn Hkept.
  rewrite (search_accepted client args query limit flag (Ok result)
             Hcheck Hquery Hlimit Hflag Hanswer).
  rewrite (dropArchived_found flag result connection found Hp Hn).
  f_equal. destruct result as [maybe]. cbn [projects] in Hp. subst maybe.
  destruct connection as [maybe]. cbn [nodes] in Hn. subst maybe.
  destruct (truthy flag); unfold searchResponse; cbn [projects nodes].
  - destruct found; [now elim Hkept | reflexivity].
  - destruct (filter _ found); [now elim Hkept | reflexivity].
Qed.

Lemma kept_projects_are_handed_back_witness :
  handleSearchProjects
    (Some (Samples.clientWith Samples.projectOnly "" Samples.upstreamNodes))
    Samples.searchByName
  = ([CallSearchProjects
        (JsObject [("name", JsObject [("contains", JsString "Alpha")])])
        (JsNumber 50)],
     Returned (JsonResponse (SearchPayload
       (Samples.foundProjects [Samples.startedNode; Samples.statelessNode])))).
Proof.
  apply (kept_projects_are_handed_back
           (Samples.clientWith Samples.projectOnly "" Samples.upstreamNodes)
           Samples.searchByName
           (JsObject [("name", JsObject [("contains", JsString "Alpha")])])
           JsUndefined JsUndefined
           (Samples.foundProjects Samples.upstreamNodes)
           (mkProjectConnection (Some Samples.upstreamNodes))
           Samples.upstreamNodes);
    try reflexivity.
  discriminate.
Defined.

(** X13.  For a [teamIds] that is a list or is not given, the one call of an
    accepted search carries a filter with a name clause exactly when a name
    is given and a team clause exactly when the list is not empty, in that
    order, and the limit [first], replaced by 50 when it is falsy (not
    given, or zero). *)
Theorem search_call_carries_filter_and_limit
  (client : LinearGraphQLClient) (args name teamIds limit : JsValue) :
  getProp args "name" = Ok name ->
  getProp args "teamIds" = Ok teamIds ->
  getProp args "first" = Ok limit ->
  teamIds = JsUndefined \/ isArray teamIds = true ->
  truthy name = true \/ nonEmptyArray teamIds = true ->
  fst (handleSearchProjects (Some client) args)
  = [CallSearchProjects
       (JsObject
          ((if truthy name then [("name", JsObject [("contains", name)])] else [])
           ++ (if nonEmptyArray teamIds
               then [("team", JsObject [("id", JsObject [("in", teamIds)])])]
               else []))%list)
       (if truthy limit then limit else JsNumber 50)].
Proof.
  intros Hname Hteams Hlimit Hlist Hgiven.
  assert (Hcheck : requireNameOrTeamIds args = Ok tt).
  { rewrite (requireNameOrTeamIds_spec args name teamIds Hname Hteams).
    destruct Hgiven as [-> | ->]; [reflexivity|]. now rewrite andb_false_r. }
  assert (Hargs : nullish args = false)
    by (destruct args; try reflexivity; discriminate Hname).
  rewrite (search_accepted client args _ limit _ _ Hcheck
             (buildFilter_of_list args name teamIds Hname Hteams Hlist) Hlimit
             (getProp_ownProp args "includeArchived" Hargs eq_refl) eq_refl).
  reflexivity.
Qed.

Lemma search_call_carries_filter_and_limit_witness :
  fst (handleSearchProjects
         (Some (Samples.clientWith Samples.projectOnly "" Samples.upstreamNodes))
         MoreSamples.searchByTeams)
  = [CallSearchProjects
       (JsObject
          [("team",
            JsObject [("id", JsObject [("in", JsArray [JsString "team-1";
                                                        JsString "team-2"])])])])
       (JsNumber 50)].
Proof.
  apply (search_call_carries_filter_and_limit
           (Samples.clientWith Samples.projectOnly "" Samples.upstreamNodes)
           MoreSamples.searchByTeams JsUndefined
           (JsArray [JsString "team-1"; JsString "team-2"]) (JsNumber 0));
    try reflexivity.
  - right. reflexivity.
  - right. reflexivity.
Defined.

(** X14.  An answer without [projects] is handed back as it is; an answer
    whose [projects] has no [nodes] makes the handler fail with a
    [TypeError], since only [projects] is read with [?.]. *)
Theorem answers_without_a_list
  (client : LinearGraphQLClient) (args query limit flag : JsValue)
  (result : SearchProjectsResult) :
  requireNameOrTeamIds args = Ok tt ->
  buildFilter args = Ok query ->
  getProp args "first" = Ok limit ->
  getProp args "includeArchived" = Ok flag ->
  searchProjects client query (jsOr limit (JsNumber 50)) = Ok result ->
  (projects result = None ->
   handleSearchProjects (Some client) args
   = ([CallSearchProjects query (jsOr limit (JsNumber 50))],
      Returned (JsonResponse (SearchPayload result))))
  /\ (forall connection,
        projects result = Some connection -> nodes connection = None ->
        exists e,
          handleSearchProjects (Some client) args
          = ([CallSearchProjects query (jsOr limit (JsNumber 50))], Raised e)
          /\ errName e = TypeError).
Proof.
  intros Hcheck Hquery Hlimit Hflag Hanswer.
  rewrite (search_accepted client args query limit flag (Ok result)
             Hcheck Hquery Hlimit Hflag Hanswer).
  split.
  - intros Hp. unfold dropArchived, searchResponse.
    destruct (negb (truthy (jsOr flag (JsBool false))));
      rewrite ?Hp; cbn iota; rewrite ?Hp; reflexivity.
  - intros connection Hp Hn.
    exists (handleError (cannotRead "undefined" "length") "search projects").
    split; [| reflexivity].
    unfold dropArchived, searchResponse.
    destruct (negb (truthy (jsOr flag (JsBool false))));
      rewrite ?Hp; cbn iota; rewrite ?Hn; cbn iota; rewrite ?Hp, ?Hn; reflexivity.
Qed.

Lemma answers_without_a_list_witness :
  handleSearchProjects
    (Some (MoreSamples.searchClient (Ok (mkSearchProjectsResult None))))
    Samples.searchByName
  = ([CallSearchProjects
        (JsObject [("name", JsObject [("contains", JsString "Alpha")])])
        (jsOr JsUndefined (JsNumber 50))],
     Returned (JsonResponse (SearchPayload (mkSearchProjectsResult None))))
  /\ exists e,
       handleSearchProjects
         (Some (MoreSamples.searchClient
                  (Ok (mkSearchProjectsResult (Some (mkProjectConnection None))))))
         Samples.searchByName
       = ([CallSearchProjects
             (JsObject [("name", JsObject [("contains", JsString "Alpha")])])
             (jsOr JsUndefined (JsNumber 50))],
          Raised e)
       /\ errName e = TypeError.
Proof.
  split.
  - exact (proj1 (answers_without_a_list
                    (MoreSamples.searchClient (Ok (mkSearchProjectsResult None)))
                    Samples.searchByName
                    (JsObject [("name", JsObject [("contains", JsString "Alpha")])])
                    JsUndefined JsUndefined (mkSearchProjectsResult None)
                    eq_refl eq_refl eq_refl eq_refl eq_refl)
                 eq_refl).
  - exact (proj2 (answers_without_a_list
                    (MoreSamples.searchClient
                       (Ok (mkSearchProjectsResult (Some (mkProjectConnection None)))))
                    Samples.searchByName
                    (JsObject [("name", JsObject [("contains", JsString "Alpha")])])
                    JsUndefined JsUndefined
                    (mkSearchProjectsResult (Some (mkProjectConnection None)))
                    eq_refl eq_refl eq_refl eq_refl eq_refl)
                 (mkProjectConnection None) eq_refl eq_refl).
Defined.

(** ** The catalog and the handlers *)

Lemma lookupProp_absent (k : string) (props : list (string * JsValue)) :
  hasOwn k props = false -> lookupProp k props = JsUndefined.
Proof.
  induction props as [|[k' v] rest IH]; simpl; [reflexivity|].
  destruct (k =? k'); simpl; [discriminate | exact IH].
Qed.

(** X15.  An invocation of the project search that carries only fields its
    schema declares ([query], [limit], [includeArchived]) is always refused,
    before any gateway call: the handler reads [name] and [teamIds], which
    the schema does not declare. *)
Theorem declared_search_fields_never_suffice
  (client : LinearGraphQLClient) (props : list (string * JsValue)) :
  (forall k, hasOwn k props = true ->
             In k (Catalog.declaredProperties Catalog.linear_search_projects)) ->
  handleSearchProjects (Some client) (JsObject props)
  = ([], Raised (handleError
                   (mkError Error
                      "At least a project name or teamIds must be provided for search")
                   "search projects")).
Proof.
  intros Hdeclared.
  assert (Habsent : forall k,
             ~ In k (Catalog.declaredProperties Catalog.linear_search_projects) ->
             lookupProp k props = JsUndefined).
  { intros k Hk. apply lookupProp_absent.
    destruct (hasOwn k props) eqn:Hown; [| reflexivity].
    elim Hk. now apply Hdeclared. }
  assert (Hname : lookupProp "name" props = JsUndefined).
  { apply Habsent. cbn. intuition discriminate. }
  assert (Hteams : lookupProp "teamIds" props = JsUndefined).
  { apply Habsent. cbn. intuition discriminate. }
  apply search_rejected.
  rewrite (requireNameOrTeamIds_spec (JsObject props) JsUndefined JsUndefined).
  - reflexivity.
  - cbn [getProp]. now rewrite Hname.
  - cbn [getProp]. now rewrite Hteams.
Qed.

Lemma declared_search_fields_never_suffice_witness :
  handleSearchProjects
    (Some (Samples.clientWith Samples.projectOnly "" Samples.upstreamNodes))
    (JsObject MoreSamples.searchAsDeclared)
  = ([], Raised (handleError
                   (mkError Error
                      "At least a project name or teamIds must be provided for search")
                   "search projects")).
Proof.
  apply (declared_search_fields_never_suffice
           (Samples.clientWith Samples.projectOnly "" Samples.upstreamNodes)
           MoreSamples.searchAsDeclared).
  intros k Hown. cbn in Hown. cbn.
  destruct (k =? "query") eqn:H1; [apply String.eqb_eq in H1; now left|].
  destruct (k =? "limit") eqn:H2; [apply String.eqb_eq in H2; now right; left|].
  destruct (k =? "includeArchived") eqn:H3;
    [apply String.eqb_eq in H3; now right; right; left | discriminate Hown].
Defined.

(** X16.  Both argument objects that the catalog documents as examples of
    [linear_create_project_with_issues] pass the checks of the handler and
    are forwarded to the gateway in one call. *)
Theorem documented_examples_are_accepted
  (client : LinearGraphQLClient) (example : JsValue) :
  In example (Catalog.exampleValues Catalog.linear_create_project_with_issues) ->
  validateProjectWithIssues example = Ok tt
  /\ fst (handleCreateProjectWithIssues (Some client) example)
     = [CallCreateProjectWithIssues (ownProp example "project")
                                    (ownProp example "issues")].
Proof.
  intros Hin. cbn in Hin.
  destruct Hin as [<- | [<- | []]];
    (split; [reflexivity | now apply create_forwarded]).
Qed.

Lemma documented_examples_are_accepted_witness :
  exists example,
    nth_error (Catalog.exampleValues Catalog.linear_create_project_with_issues) 1
    = Some example
    /\ validateProjectWithIssues example = Ok tt
    /\ fst (handleCreateProjectWithIssues
              (Some (Samples.clientWith Samples.bothCreated "" [])) example)
       = [CallCreateProjectWithIssues (ownProp example "project")
                                      (ownProp example "issues")].
Proof.
  eexists. split; [reflexivity|].
  apply (documented_examples_are_accepted
           (Samples.clientWith Samples.bothCreated "" [])).
  right. left. reflexivity.
Defined.

(** X17.  The catalog is coherent: every tool is found under its own name,
    which is also its [name] field, its input schema is an object schema,
    and at every level a schema requires only properties it declares. *)
Theorem catalog_is_coherent :
  (forall key tool,
     In (key, tool) (Catalog.entries Catalog.toolSchemas) ->
     Catalog.toolNamed key = tool
     /\ ownProp tool "name" = JsString key
     /\ ownProp (ownProp tool "inputSchema") "type" = JsString "object")
  /\ (forall schema,
        In schema (Catalog.subObjects Catalog.toolSchemas) ->
        Catalog.requiredDeclared schema = true).
Proof.
  split.
  - intros key tool Hin. cbn in Hin.
    repeat (destruct Hin as [[= <- <-] | Hin]; [repeat split; reflexivity|]).
    destruct Hin.
  - assert (H : forallb Catalog.requiredDeclared
                        (Catalog.subObjects Catalog.toolSchemas) = true)
      by (vm_compute; reflexivity).
    intros schema Hin. exact (proj1 (forallb_forall _ _) H schema Hin).
Qed.
